(** * Multisender: recipient book, transaction submitter and batch loop

    A shallow embedding of [client/src/components/multisender.tsx] and
    [client/src/lib/web3.ts], with the two backend routes the batch loop
    talks to and the storage class behind them.

    JavaScript strings are modelled as [string]: sequences of code units
    below 256 (the Latin-1 range).  Every string operation used by the code
    ([trim], [split], [startsWith], [length], [toLowerCase], [parseFloat],
    [includes]) is written out on that representation. *)

From stdpp Require Import base option list gmap strings pretty.
From Stdlib Require Import ZArith Ascii String Lia.

Local Open Scope string_scope.

(** ** JavaScript string primitives *)

Module Js.

(** WhiteSpace and LineTerminator code units below 256:
    TAB, LF, VT, FF, CR, SP and NBSP. *)
Definition isWhiteSpace (c : ascii) : bool :=
  let n := nat_of_ascii c in
  Nat.eqb n 9 || Nat.eqb n 10 || Nat.eqb n 11 || Nat.eqb n 12
  || Nat.eqb n 13 || Nat.eqb n 32 || Nat.eqb n 160.

Fixpoint trimStart (s : string) : string :=
  match s with
  | EmptyString => EmptyString
  | String c s' => if isWhiteSpace c then trimStart s' else s
  end.

Fixpoint trimEnd (s : string) : string :=
  match s with
  | EmptyString => EmptyString
  | String c s' =>
      match trimEnd s' with
      | EmptyString => if isWhiteSpace c then EmptyString else String c EmptyString
      | t => String c t
      end
  end.

(** [String.prototype.trim] *)
Definition trim (s : string) : string := trimEnd (trimStart s).

(** [String.prototype.split] with a one-character separator: the result is
    never empty, and the empty string splits into one empty field. *)
Fixpoint split (sep : ascii) (s : string) : list string :=
  match s with
  | EmptyString => [EmptyString]
  | String c s' =>
      if Ascii.eqb c sep then EmptyString :: split sep s'
      else match split sep s' with
           | x :: xs => String c x :: xs
           | [] => [String c EmptyString]
           end
  end.

(** [String.prototype.startsWith] *)
Definition startsWith (p s : string) : bool := String.prefix p s.

(** [String.prototype.includes]: [p] occurs somewhere in [s]. *)
Fixpoint includes (p s : string) : bool :=
  String.prefix p s ||
  match s with
  | EmptyString => false
  | String _ s' => includes p s'
  end.

(** [String.prototype.toLowerCase] on code units below 256: A-Z and the
    Latin-1 capitals U+00C0-U+00DE (without the multiplication sign U+00D7)
    move up by 32, every other unit is kept. *)
Definition lowerChar (c : ascii) : ascii :=
  let n := nat_of_ascii c in
  if (Nat.leb 65 n && Nat.leb n 90)
     || (Nat.leb 192 n && Nat.leb n 222 && negb (Nat.eqb n 215))
  then ascii_of_nat (n + 32) else c.

Fixpoint toLowerCase (s : string) : string :=
  match s with
  | EmptyString => EmptyString
  | String c s' => String (lowerChar c) (toLowerCase s')
  end.

(** A JavaScript truthiness test on a string: [!s] holds for the empty
    string only. *)
Definition falsy (s : string) : bool :=
  match s with EmptyString => true | _ => false end.

(** *** parseFloat

    The result keeps the exact decimal value of the parsed literal,
    [(-1)^neg * m * 10^e]; only the tests the code performs on it ([isNaN]
    and [<= 0]) are defined, through the rounding of that value to the
    nearest double. *)
Inductive Number :=
| NaN
| Infinity (neg : bool)
| Finite (neg : bool) (m : N) (e : Z).

Definition isDigit (c : ascii) : bool :=
  let n := nat_of_ascii c in Nat.leb 48 n && Nat.leb n 57.

(** Longest prefix of decimal digits, and what follows it. *)
Fixpoint spanDigits (s : string) : string * string :=
  match s with
  | EmptyString => (EmptyString, EmptyString)
  | String c s' =>
      if isDigit c then let '(d, r) := spanDigits s' in (String c d, r)
      else (EmptyString, s)
  end.

(** Value of a string of decimal digits, most significant first. *)
Fixpoint digitsValue (acc : N) (d : string) : N :=
  match d with
  | EmptyString => acc
  | String c d' => digitsValue (acc * 10 + N.of_nat (nat_of_ascii c - 48)) d'
  end.

(** ExponentPart: [e] or [E], an optional sign and at least one digit; when
    the digits are missing the exponent is not part of the literal. *)
Definition exponentPart (s : string) : Z :=
  match s with
  | String c r =>
      if Ascii.eqb c "e" || Ascii.eqb c "E" then
        let '(sg, r') :=
          match r with
          | String "+" r' => (false, r')
          | String "-" r' => (true, r')
          | _ => (false, r)
          end in
        let '(d, _) := spanDigits r' in
        if falsy d then 0%Z
        else if sg then (- Z.of_N (digitsValue 0 d))%Z
             else Z.of_N (digitsValue 0 d)
      else 0%Z
  | EmptyString => 0%Z
  end.

(** Longest prefix that is a StrUnsignedDecimalLiteral other than
    [Infinity]: digits, an optional fraction, an optional exponent, with at
    least one digit before the exponent. *)
Definition unsignedLiteral (s : string) : option (N * Z) :=
  let '(ip, r1) := spanDigits s in
  let '(fp, r2) :=
    match r1 with
    | String "." r => spanDigits r
    | _ => (EmptyString, r1)
    end in
  if falsy ip && falsy fp then None
  else Some (digitsValue 0 (ip ++ fp),
             (exponentPart r2 - Z.of_nat (String.length fp))%Z).

Definition parseFloat (s : string) : Number :=
  let t := trimStart s in
  let '(neg, u) :=
    match t with
    | String "+" u => (false, u)
    | String "-" u => (true, u)
    | _ => (false, t)
    end in
  if String.prefix "Infinity" u then Infinity neg
  else match unsignedLiteral u with
       | Some (m, e) => Finite neg m e
       | None => NaN
       end.

Definition isNaN (x : Number) : bool :=
  match x with NaN => true | _ => false end.

(** A positive decimal [m * 10^e] rounds to the double [+0] exactly when it
    is at most [2^-1075], half the least subnormal. *)
Definition roundsToZero (m : N) (e : Z) : bool :=
  N.eqb m 0 ||
  (Z.ltb e 0 && Z.leb (Z.of_N m * 2 ^ 1075) (10 ^ (- e)))%Z.

(** [x <= 0]: false on NaN; true on every negative literal (the double is
    negative or [-0]), and on the positive ones that round to zero. *)
Definition leZero (x : Number) : bool :=
  match x with
  | NaN => false
  | Infinity neg => neg
  | Finite neg m e => neg || roundsToZero m e
  end.

End Js.

(** ** The recipient book (component state of [Multisender]) *)

Inductive TokenType := native | erc20.

Record Recipient := mkRecipient { address : string; amount : string }.

Record Toast := mkToast {
  title : string;
  description : string;
  destructive : bool
}.

(** The [useState] cells of the component, and the toasts it has shown. *)
Record Multisender := mkMultisender {
  recipients : list Recipient;
  newAddress : string;
  newAmount : string;
  tokenType : TokenType;
  tokenAddress : string;
  tokenSymbol : string;
  toasts : list Toast
}.

#[global] Instance TokenType_eq_dec : EqDecision TokenType.
Proof. solve_decision. Defined.
#[global] Instance Recipient_eq_dec : EqDecision Recipient.
Proof. solve_decision. Defined.
#[global] Instance Toast_eq_dec : EqDecision Toast.
Proof. solve_decision. Defined.

Definition toast (t : Toast) (ui : Multisender) : Multisender :=
  {| recipients := recipients ui; newAddress := newAddress ui;
     newAmount := newAmount ui; tokenType := tokenType ui;
     tokenAddress := tokenAddress ui; tokenSymbol := tokenSymbol ui;
     toasts := toasts ui ++ [t] |}.

Definition setRecipients (rs : list Recipient) (ui : Multisender) : Multisender :=
  {| recipients := rs; newAddress := newAddress ui;
     newAmount := newAmount ui; tokenType := tokenType ui;
     tokenAddress := tokenAddress ui; tokenSymbol := tokenSymbol ui;
     toasts := toasts ui |}.

Definition setNewAddress (a : string) (ui : Multisender) : Multisender :=
  {| recipients := recipients ui; newAddress := a;
     newAmount := newAmount ui; tokenType := tokenType ui;
     tokenAddress := tokenAddress ui; tokenSymbol := tokenSymbol ui;
     toasts := toasts ui |}.

Definition setNewAmount (a : string) (ui : Multisender) : Multisender :=
  {| recipients := recipients ui; newAddress := newAddress ui;
     newAmount := a; tokenType := tokenType ui;
     tokenAddress := tokenAddress ui; tokenSymbol := tokenSymbol ui;
     toasts := toasts ui |}.

Definition missingInformation : Toast :=
  mkToast "Missing Information" "Please enter both address and amount" true.
Definition invalidAddress : Toast :=
  mkToast "Invalid Address" "Please enter a valid Ethereum address" true.
Definition invalidAmount : Toast :=
  mkToast "Invalid Amount" "Please enter a valid amount greater than 0" true.
Definition duplicateAddress : Toast :=
  mkToast "Duplicate Address" "This address is already in the recipients list" true.

(** [recipients.some(r => r.address.toLowerCase() === a.toLowerCase())] *)
Definition someSameAddress (rs : list Recipient) (a : string) : bool :=
  existsb (fun r => String.eqb (Js.toLowerCase (address r)) (Js.toLowerCase a)) rs.

Definition addRecipient (ui : Multisender) : Multisender :=
  if Js.falsy (newAddress ui) || Js.falsy (newAmount ui) then
    toast missingInformation ui
  else if negb (Js.startsWith "0x" (newAddress ui))
          || negb (Nat.eqb (String.length (newAddress ui)) 42) then
    toast invalidAddress ui
  else
    let amount := Js.parseFloat (newAmount ui) in
    if Js.isNaN amount || Js.leZero amount then
      toast invalidAmount ui
    else if someSameAddress (recipients ui) (newAddress ui) then
      toast duplicateAddress ui
    else
      setNewAmount "" (setNewAddress ""
        (setRecipients (recipients ui ++ [mkRecipient (newAddress ui) (newAmount ui)]) ui)).

Definition removeRecipient (index : nat) (ui : Multisender) : Multisender :=
  setRecipients
    (map snd (List.filter (fun p => negb (Nat.eqb (fst p) index))
                (combine (seq 0 (List.length (recipients ui))) (recipients ui))))
    ui.

Definition clearAll (ui : Multisender) : Multisender := setRecipients [] ui.

Definition csvUploaded (n : nat) : Toast :=
  mkToast "CSV Uploaded" ("Added " ++ pretty n ++ " recipients from CSV") false.
Definition invalidCSV : Toast :=
  mkToast "Invalid CSV" "No valid recipients found in CSV file" true.

(** One turn of the import loop: [const [address, amount] =
    line.split(',').map(item => item.trim())] followed by the two nested
    tests; a missing second field is [undefined], hence falsy. *)
Definition csvLine (line : string) : option Recipient :=
  match map Js.trim (Js.split "," line) with
  | address :: amount :: _ =>
      if negb (Js.falsy address) && negb (Js.falsy amount) then
        if Js.startsWith "0x" address
           && Nat.eqb (String.length address) 42
           && negb (Js.isNaN (Js.parseFloat amount))
        then Some (mkRecipient address amount)
        else None
      else None
  | _ => None
  end.

(** The [for] loop over the kept lines, pushing onto [newRecipients]. *)
Fixpoint csvLines (lines : list string) (newRecipients : list Recipient)
  : list Recipient :=
  match lines with
  | [] => newRecipients
  | line :: rest =>
      csvLines rest
        (match csvLine line with
         | Some r => newRecipients ++ [r]
         | None => newRecipients
         end)
  end.

Definition newline : ascii := ascii_of_nat 10.

(** [handleCSVUpload]: [file] is the text of the chosen file, if any. *)
Definition handleCSVUpload (file : option string) (ui : Multisender) : Multisender :=
  match file with
  | None => ui
  | Some text =>
      let lines :=
        List.filter (fun line => negb (Js.falsy (Js.trim line)))
                    (Js.split newline text) in
      let newRecipients := csvLines lines [] in
      if Nat.ltb 0 (List.length newRecipients) then
        toast (csvUploaded (List.length newRecipients))
              (setRecipients (recipients ui ++ newRecipients) ui)
      else toast invalidCSV ui
  end.

(** An address made of ["0x"] and forty copies of one character. *)
Definition addr40 (c : ascii) : string :=
  "0x" ++ string_of_list_ascii (repeat c 40).

Definition emptyBook : Multisender :=
  mkMultisender [] "" "" native "" "MON" [].

(** ** Exceptions and state

    An [async] function is a computation over a state [S] that either
    returns or throws; the state survives a throw, as the heap does. *)

Record Error := mkError {
  code : option Z;       (* [error.code], when the provider sets one *)
  message : string       (* [error.message]; empty when absent *)
}.

(** [new Error(msg)] *)
Definition newError (msg : string) : Error := mkError None msg.

Inductive Res (A : Type) :=
| Ok (a : A)
| Throw (e : Error).
Arguments Ok {A} a.
Arguments Throw {A} e.

Definition M (S A : Type) : Type := S -> Res A * S.

Definition ret {S A} (a : A) : M S A := fun s => (Ok a, s).

Definition throw {S A} (e : Error) : M S A := fun s => (Throw e, s).

Definition bind {S A B} (c : M S A) (k : A -> M S B) : M S B :=
  fun s => match c s with
           | (Ok a, s') => k a s'
           | (Throw e, s') => (Throw e, s')
           end.

(** [try { body } catch (error) { handler }] *)
Definition tryCatch {S A} (body : M S A) (handler : Error -> M S A) : M S A :=
  fun s => match body s with
           | (Ok a, s') => (Ok a, s')
           | (Throw e, s') => handler e s'
           end.

Definition gets {S A} (f : S -> A) : M S A := fun s => (Ok (f s), s).

Definition modify {S} (f : S -> S) : M S unit := fun s => (Ok tt, f s).

Notation "'let*' x ':=' c 'in' k" := (bind c (fun x => k))
  (at level 10, x pattern, c at level 100, k at level 200).
Notation "c ';;' k" := (bind c (fun _ => k))
  (at level 100, k at level 200, right associativity).


(** ** The persisted record ([shared/schema.ts]) *)

Module Schema.

Inductive Status := pending | confirmed | failed | partially_failed.

(** A row of [multisend_transactions]; nullable columns are options, and
    [createdAt] is a time stamp. *)
Record MultisendTransaction := mk {
  id : string;
  senderAddress : string;
  recipients : list Recipient;
  totalAmount : string;
  tokenType : TokenType;
  tokenAddress : option string;
  tokenSymbol : string;
  transactionHash : option string;
  transactionHashes : option (list string);
  failedAddresses : option (list string);
  status : Status;
  gasUsed : option string;
  createdAt : nat
}.

End Schema.

#[global] Instance Status_eq_dec : EqDecision Schema.Status.
Proof. solve_decision. Defined.

(** The argument of the mutation, built by [handleSendToMultiple]. *)
Module Data.
Record MultisendData := mk {
  recipients : list Recipient;
  totalAmount : string;
  tokenType : TokenType;
  tokenAddress : option string;
  tokenSymbol : string;
  senderAddress : string
}.
End Data.

(** [InsertMultisend] as the client fills it, the body of
    [POST /api/multisend]: the columns it does not send ([transactionHash],
    [failedAddresses], [gasUsed]) are absent. *)
Module Insert.
Record Multisend := mk {
  senderAddress : string;
  recipients : list Recipient;
  totalAmount : string;
  tokenType : TokenType;
  tokenAddress : option string;
  tokenSymbol : string;
  transactionHashes : list string;
  status : Schema.Status
}.
End Insert.

(** The body of a [PUT /api/multisend/:id]: the fields it carries. *)
Module Update.
Record Body := mk {
  status : Schema.Status;
  transactionHashes : list string;
  failedAddresses : list string;
  gasUsed : option string
}.
End Update.

(** ** The outside world *)

(** What a [Web3] instance was built on: [new Web3(window.ethereum)] or
    [new Web3(url)]. *)
Inductive Provider := Injected | Rpc (url : string).

Record TxParams := mkTxParams {
  from : string;
  to : string;
  value : Z;
  data : option string
}.

Module Deploy.

(** [contract.deploy({ data: bytecode, arguments: constructorArgs })] on
    [new web3.eth.Contract(abi)]; an entry of [abi] stands for one item of
    the interface. *)
Record Deployment := mkDeployment {
  abi : list string;
  bytecode : string;
  arguments : list string
}.

(** What [deployTx.send] resolves to; either field may be missing. *)
Record Deployed := mkDeployed {
  optionsAddress : option string;
  deployedHash : option string
}.

Record Result := mkResult { address : string; transactionHash : string }.

End Deploy.

(** What the code asks of the wallet, the node, the timer and the backend,
    in the order it asks.  A request made through a [Web3] instance names
    what the instance was built on. *)
Inductive Event :=
| EthRequest (method : string)          (* [window.ethereum.request] *)
| GetAccounts (via : Provider)          (* [web3.eth.getAccounts] *)
| EstimateGas (via : Provider) (tx : TxParams)
| SendTransaction (via : Provider) (tx : TxParams)
                                        (* sign and broadcast, native *)
| BalanceOf (via : Provider) (token owner : string)
                                        (* [balanceOf(owner).call()] *)
| Transfer (via : Provider) (token sender recipient : string) (wei : Z)
                                        (* sign and broadcast, token *)
| EstimateDeploy (via : Provider) (tx : Deploy.Deployment) (sender : string)
| SendDeploy (via : Provider) (tx : Deploy.Deployment) (sender : string) (gas : Z)
| Delay (ms : nat)                      (* [setTimeout(resolve, ms)] *)
| ApiPost (body : Data.MultisendData)   (* [POST /api/multisend] *)
| ApiPut (id : string) (body : Update.Body). (* [PUT /api/multisend/:id] *)

(** Everything the code receives from outside.  Whether a wallet is
    injected, and what the user answers to the dialog, is fixed during a
    call.  A reply of the wallet, the node or the backend may be an error,
    and may depend on all that was asked so far, the current request
    included (the last event).  [isAddress] and [toWei] are [web3.utils];
    [newContract] and [deploy] tell whether a contract object can be built
    on an interface and a deployment on that object; [gasWithBuffer] stands
    for the floating-point [Math.floor(Number(gasEstimate) * 1.2)] and
    [totalAmountString] for the floating-point sum of the amounts printed by
    [toString], which no branch of the code looks at; [randomUUID] and [clock]
    are what the backend draws for a new record. *)
Record Env := mkEnv {
  ethereum : bool;                         (* [window.ethereum] is set *)
  confirmAnswer : bool;                    (* the [confirm] dialog *)
  isAddress : string -> bool;
  toWei : string -> Error + Z;             (* [toWei(s, 'ether')] *)
  newContract : list string -> option string -> option Error;
  deploy : Deploy.Deployment -> option Error;
  gasWithBuffer : Z -> Z;
  totalAmountString : list Recipient -> string;
  requestAccountsReply : list Event -> Error + list string;
  requestChainIdReply : list Event -> Error + string;
  getAccountsReply : list Event -> Error + list string;
  estimateGasReply : list Event -> Error + Z;
  sendTransactionReply : list Event -> Error + string;
  balanceOfReply : list Event -> Error + Z;
  transferReply : list Event -> Error + string;
  estimateDeployReply : list Event -> Error + Z;
  sendDeployReply : list Event -> Error + Deploy.Deployed;
  randomUUID : list Event -> string;
  clock : list Event -> nat;
  apiReply : list Event -> option Error    (* the request does not arrive *)
}.

(** The state the code works on: the map held by the storage object of the
    backend, the [web3Instance] variable of [lib/web3.ts], and what was
    asked so far. *)
Record World := mkWorld {
  store : gmap string Schema.MultisendTransaction;
  web3Instance : option Provider;
  trace : list Event
}.

Definition emit (ev : Event) : M World unit :=
  modify (fun w => mkWorld (store w) (web3Instance w) (trace w ++ [ev])).

(** A library call that may throw. *)
Definition call {S A} (r : Error + A) : M S A :=
  match r with
  | inl e => throw e
  | inr a => ret a
  end.

(** A library call made for its effect only. *)
Definition mayThrow {S} (r : option Error) : M S unit :=
  match r with
  | Some e => throw e
  | None => ret tt
  end.

(** Issue a request and wait for it to settle. *)
Definition ask {A} (ev : Event) (reply : list Event -> Error + A) : M World A :=
  emit ev ;;
  let* tr := gets trace in
  call (reply tr).

(** ** The transaction submitter ([lib/web3.ts]) *)

Definition rpcUrl : string := "https://testnet-rpc.monad.xyz/".

(** The interface handed to [new web3.eth.Contract] by [sendERC20Token]:
    its two entries. *)
Definition tokenABI : list string := ["transfer"; "balanceOf"].

Section Web3.
Context (env : Env).

Definition setWeb3Instance (web3 : Provider) : M World unit :=
  modify (fun w => mkWorld (store w) (Some web3) (trace w)).

(** [initializeWeb3]: the variable [web3Instance] is set by the first call
    and read by the later ones. *)
Definition initializeWeb3 : M World Provider :=
  let* web3Instance := gets web3Instance in
  match web3Instance with
  | Some web3 => ret web3
  | None =>
      if ethereum env then setWeb3Instance Injected ;; ret Injected
      else setWeb3Instance (Rpc rpcUrl) ;; ret (Rpc rpcUrl)
  end.

(** [web3.eth.getAccounts()]: asked of whatever the instance was built
    on; the request may be rejected, and where it is awaited outside a
    [try] its error leaves the caller as it came. *)
Definition getAccounts (web3 : Provider) : M World (list string) :=
  ask (GetAccounts web3) (getAccountsReply env).

(** [error.message || 'Unknown error'] *)
Definition messageOr (e : Error) (dflt : string) : string :=
  if Js.falsy (message e) then dflt else message e.

Definition hasCode (e : Error) (c : Z) : bool :=
  match code e with
  | Some c' => Z.eqb c' c
  | None => false
  end.

(** The gas limit [Math.floor(Number(gasEstimate) * 1.3)] is added to the
    parameters after the estimate; it is left out of [TxParams]. *)
Definition sendTransaction (to value : string) (data : option string)
  : M World string :=
  let* web3 := initializeWeb3 in
  if negb (ethereum env) then throw (newError "MetaMask not available")
  else
    let* accounts := getAccounts web3 in
    match accounts with
    | [] => throw (newError "No wallet connected")
    | account0 :: _ =>
        if negb (isAddress env to) then
          throw (newError ("Invalid recipient address: " ++ to))
        else
          let valueNum := Js.parseFloat value in
          if Js.isNaN valueNum || Js.leZero valueNum then
            throw (newError ("Invalid amount: " ++ value))
          else
            tryCatch
              (let* wei := call (toWei env value) in
               let txParams :=
                 mkTxParams account0 to wei
                   (match data with
                    | Some d => if Js.falsy d then None else Some d
                    | None => None
                    end) in
               let* gasEstimate :=
                 ask (EstimateGas web3 txParams) (estimateGasReply env) in
               let* receipt :=
                 ask (SendTransaction web3 txParams) (sendTransactionReply env) in
               ret receipt)
              (fun error =>
                 if hasCode error 4001 then
                   throw (newError "Transaction was rejected by user")
                 else if hasCode error (-32603) then
                   throw (newError "Transaction failed - insufficient funds or gas")
                 else if Js.includes "insufficient funds" (message error) then
                   throw (newError "Insufficient funds for transaction")
                 else
                   throw (newError ("Transaction failed: "
                                    ++ messageOr error "Unknown error")))
    end.

(** The reply to [BalanceOf] is the balance as a number; an error reply
    stands for any failure between the building of the call and the reading
    of its answer as a big number. *)
Definition sendERC20Token (tokenAddress to amount : string) (decimals : nat)
  : M World string :=
  let* web3 := initializeWeb3 in
  if negb (ethereum env) then throw (newError "MetaMask not available")
  else
    let* accounts := getAccounts web3 in
    match accounts with
    | [] => throw (newError "No wallet connected")
    | account0 :: _ =>
        if negb (isAddress env tokenAddress) then
          throw (newError ("Invalid token address: " ++ tokenAddress))
        else if negb (isAddress env to) then
          throw (newError ("Invalid recipient address: " ++ to))
        else
          let amountNum := Js.parseFloat amount in
          if Js.isNaN amountNum || Js.leZero amountNum then
            throw (newError ("Invalid amount: " ++ amount))
          else
            tryCatch
              (mayThrow (newContract env tokenABI (Some tokenAddress)) ;;
               let* amountInWei := call (toWei env amount) in
               let* balance :=
                 ask (BalanceOf web3 tokenAddress account0) (balanceOfReply env) in
               if Z.ltb balance amountInWei then
                 throw (newError "Insufficient token balance")
               else
                 let* tx := ask (Transfer web3 tokenAddress account0 to amountInWei)
                                (transferReply env) in
                 ret tx)
              (fun error =>
                 if hasCode error 4001 then
                   throw (newError "Transaction was rejected by user")
                 else if Js.includes "insufficient" (message error) then
                   throw (newError "Insufficient token balance or gas")
                 else if Js.includes "transfer amount exceeds balance" (message error) then
                   throw (newError "Insufficient token balance")
                 else
                   throw (newError ("Token transfer failed: "
                                    ++ messageOr error "Unknown error")))
    end.

(** [deployContract]; the function has no [try], so every error leaves it
    as it is. *)
Definition deployContract (bytecode : string) (abi constructorArgs : list string)
  : M World Deploy.Result :=
  let* web3 := initializeWeb3 in
  if negb (ethereum env) then throw (newError "MetaMask not available")
  else
    let* accounts := getAccounts web3 in
    match accounts with
    | [] => throw (newError "No wallet connected")
    | account0 :: _ =>
        mayThrow (newContract env abi None) ;;
        let deployTx := Deploy.mkDeployment abi bytecode constructorArgs in
        mayThrow (deploy env deployTx) ;;
        let* gasEstimate :=
          ask (EstimateDeploy web3 deployTx account0) (estimateDeployReply env) in
        let* deployed :=
          ask (SendDeploy web3 deployTx account0 (gasWithBuffer env gasEstimate))
              (sendDeployReply env) in
        ret (Deploy.mkResult (default "" (Deploy.optionsAddress deployed))
                             (default "" (Deploy.deployedHash deployed)))
    end.

End Web3.

(** ** The backend

    The storage object ([MemStorage], filed with the sources under
    [contracts/ERC1155Token.sol]) and the two routes of [/api/multisend]
    ([unnamed/part_000]). *)

(** What a route answers: [res.json(transaction)], or
    [res.status(code).json({ error })]. *)
Inductive Response :=
| Json (transaction : Schema.MultisendTransaction)
| Failure (status : nat) (error : string).

Section Backend.
Context (env : Env).

(** [MemStorage.createMultisendTransaction]: the record is
    [{...insertMultisend, transactionHash: null, gasUsed: null, id,
    status: "pending", createdAt: new Date()}]. *)
Definition createMultisendTransaction (insertMultisend : Insert.Multisend)
  : M World Schema.MultisendTransaction :=
  let* tr := gets trace in
  let id := randomUUID env tr in
  let transaction :=
    Schema.mk id (Insert.senderAddress insertMultisend)
      (Insert.recipients insertMultisend) (Insert.totalAmount insertMultisend)
      (Insert.tokenType insertMultisend) (Insert.tokenAddress insertMultisend)
      (Insert.tokenSymbol insertMultisend)
      None (Some (Insert.transactionHashes insertMultisend)) None
      Schema.pending None (clock env tr) in
  modify (fun w => mkWorld (<[id := transaction]> (store w)) (web3Instance w) (trace w)) ;;
  ret transaction.

(** [{ ...transaction, ...updates }] for the fields a [PUT] body carries. *)
Definition merge (updates : Update.Body) (transaction : Schema.MultisendTransaction)
  : Schema.MultisendTransaction :=
  Schema.mk (Schema.id transaction) (Schema.senderAddress transaction)
    (Schema.recipients transaction) (Schema.totalAmount transaction)
    (Schema.tokenType transaction) (Schema.tokenAddress transaction)
    (Schema.tokenSymbol transaction) (Schema.transactionHash transaction)
    (Some (Update.transactionHashes updates))
    (Some (Update.failedAddresses updates))
    (Update.status updates)
    (match Update.gasUsed updates with
     | Some g => Some g
     | None => Schema.gasUsed transaction
     end)
    (Schema.createdAt transaction).

(** [MemStorage.updateMultisendTransaction] *)
Definition updateMultisendTransaction (id : string) (updates : Update.Body)
  : M World (option Schema.MultisendTransaction) :=
  let* multisendTransactions := gets store in
  match multisendTransactions !! id with
  | None => ret None
  | Some transaction =>
      let updatedTransaction := merge updates transaction in
      modify (fun w => mkWorld (<[id := updatedTransaction]> (store w))
                               (web3Instance w) (trace w)) ;;
      ret (Some updatedTransaction)
  end.

(** [insertMultisendSchema.parse(req.body)]: a body of type
    [Insert.Multisend] has the three required columns and every column of
    the right type, so it is returned. *)
Definition parse (body : Insert.Multisend) : Error + Insert.Multisend := inr body.

(** [{ ...validatedData, status: "pending" }] *)
Definition withPending (validatedData : Insert.Multisend) : Insert.Multisend :=
  Insert.mk (Insert.senderAddress validatedData) (Insert.recipients validatedData)
    (Insert.totalAmount validatedData) (Insert.tokenType validatedData)
    (Insert.tokenAddress validatedData) (Insert.tokenSymbol validatedData)
    (Insert.transactionHashes validatedData) Schema.pending.

(** [app.post("/api/multisend", ...)] *)
Definition postMultisend (body : Insert.Multisend) : M World Response :=
  tryCatch
    (let* validatedData := call (parse body) in
     let* transaction := createMultisendTransaction (withPending validatedData) in
     ret (Json transaction))
    (fun error => ret (Failure 400 "Invalid transaction data")).

(** [app.put("/api/multisend/:id", ...)] *)
Definition putMultisend (id : string) (body : Update.Body) : M World Response :=
  tryCatch
    (let* transaction := updateMultisendTransaction id body in
     match transaction with
     | None => ret (Failure 404 "Transaction not found")
     | Some transaction => ret (Json transaction)
     end)
    (fun error => ret (Failure 400 "Failed to update transaction")).

(** Modelled from the spec: [apiRequest] (lib/queryClient) is not among the
    sources.  The request is sent; when it does not arrive the route is not
    run and the call throws; when the route answers with an error status the
    call throws an error that carries the status and the message; otherwise
    it resolves to the record of the answer, which is all the callers read
    from it. *)
Definition apiRequest (request : Event) (route : M World Response)
  : M World Schema.MultisendTransaction :=
  emit request ;;
  let* tr := gets trace in
  mayThrow (apiReply env tr) ;;
  let* response := route in
  match response with
  | Json transaction => ret transaction
  | Failure status error => throw (newError (pretty status ++ ": " ++ error))
  end.

End Backend.

(** ** The batch run ([sendMutation] in [multisender.tsx]) *)

(** What [mutationFn] resolves to:
    [{...multisendRecord, status, transactionHashes, failedTransactions}]. *)
Module Outcome.
Record Result := mk {
  record : Schema.MultisendTransaction;
  status : Schema.Status;
  transactionHashes : list string;
  failedTransactions : list string
}.
End Outcome.

(** The two arrays of one run, next to the world: they are mutated in place,
    so the [catch] clause sees what was pushed before the throw. *)
Record Frame := mkFrame {
  world : World;
  transactionHashes : list string;
  failedTransactions : list string
}.

Definition liftW {A} (c : M World A) : M Frame A :=
  fun f => let '(r, w) := c (world f) in
           (r, mkFrame w (transactionHashes f) (failedTransactions f)).

Definition pushHash (h : string) : M Frame unit :=
  modify (fun f => mkFrame (world f) (transactionHashes f ++ [h]) (failedTransactions f)).

Definition pushFailed (a : string) : M Frame unit :=
  modify (fun f => mkFrame (world f) (transactionHashes f) (failedTransactions f ++ [a])).

(** The conditional expression assigned to [finalStatus]. *)
Definition finalStatus (failedTransactions : list string)
    (recipients : list Recipient) : Schema.Status :=
  if Nat.eqb (List.length failedTransactions) 0 then Schema.confirmed
  else if Nat.eqb (List.length failedTransactions) (List.length recipients)
       then Schema.failed
       else Schema.partially_failed.

Section Batch.
Context (env : Env).

(** [{ ...multisendData, status: "pending", transactionHashes: [] }] *)
Definition postBody (multisendData : Data.MultisendData) : Insert.Multisend :=
  Insert.mk (Data.senderAddress multisendData) (Data.recipients multisendData)
    (Data.totalAmount multisendData) (Data.tokenType multisendData)
    (Data.tokenAddress multisendData) (Data.tokenSymbol multisendData)
    [] Schema.pending.

(** [apiRequest("POST", "/api/multisend", ...)] followed by
    [initialResponse.json()]. *)
Definition apiPost (multisendData : Data.MultisendData)
  : M World Schema.MultisendTransaction :=
  apiRequest env (ApiPost multisendData) (postMultisend env (postBody multisendData)).

(** [apiRequest("PUT", `/api/multisend/${id}`, body)] *)
Definition apiPut (id : string) (body : Update.Body)
  : M World Schema.MultisendTransaction :=
  apiRequest env (ApiPut id body) (putMultisend id body).

(** The call of the submitter in the loop.  A [null] token address reaches
    [sendERC20Token] as the text [null]. *)
Definition submit (multisendData : Data.MultisendData) (recipient : Recipient)
  : M World string :=
  match Data.tokenType multisendData with
  | native => sendTransaction env (address recipient) (amount recipient) None
  | erc20 =>
      sendERC20Token env (default "null" (Data.tokenAddress multisendData))
        (address recipient) (amount recipient) 18
  end.

(** The body of the [for] loop at index [i], which is below the length of
    the list. *)
Definition loopBody (multisendData : Data.MultisendData) (i : nat) : M Frame unit :=
  let recipients := Data.recipients multisendData in
  match recipients !! i with
  | None => ret tt
  | Some recipient =>
      tryCatch
        (let* result := liftW (submit multisendData recipient) in
         pushHash result ;;
         if Nat.ltb i (List.length recipients - 1) then liftW (emit (Delay 2000))
         else ret tt)
        (fun error => pushFailed (address recipient))
  end.

(** [n] turns of the loop starting at index [i]; the whole loop is
    [forLoop multisendData (length recipients) 0]. *)
Fixpoint forLoop (multisendData : Data.MultisendData) (n i : nat) : M Frame unit :=
  match n with
  | O => ret tt
  | S n' => loopBody multisendData i ;; forLoop multisendData n' (S i)
  end.

(** The outer [try] block, after the record [multisendRecord] was created. *)
Definition tryBlock (multisendData : Data.MultisendData)
    (multisendRecord : Schema.MultisendTransaction) : M Frame Outcome.Result :=
  let recipients := Data.recipients multisendData in
  let totalGasUsed := "0" in
  forLoop multisendData (List.length recipients) 0 ;;
  let* failed := gets failedTransactions in
  let* hashes := gets transactionHashes in
  let status := finalStatus failed recipients in
  let* updateResponse :=
    liftW (apiPut (Schema.id multisendRecord)
             (Update.mk status hashes failed (Some totalGasUsed))) in
  ret (Outcome.mk multisendRecord status hashes failed).

(** The body sent by the outer [catch] clause. *)
Definition catchUpdate (multisendData : Data.MultisendData) (hashes : list string)
  : Update.Body :=
  Update.mk Schema.failed hashes (map address (Data.recipients multisendData)) None.

(** The outer [catch] clause. *)
Definition catchBlock (multisendData : Data.MultisendData)
    (multisendRecord : Schema.MultisendTransaction) (error : Error)
  : M Frame Outcome.Result :=
  let* hashes := gets transactionHashes in
  liftW (apiPut (Schema.id multisendRecord) (catchUpdate multisendData hashes)) ;;
  throw error.

(** [mutationFn] from the creation of the record on. *)
Definition mutationBody (multisendData : Data.MultisendData) : M Frame Outcome.Result :=
  let* multisendRecord := liftW (apiPost multisendData) in
  tryCatch (tryBlock multisendData multisendRecord)
           (catchBlock multisendData multisendRecord).

(** [mutationFn]: the wallet and network checks, then the run. *)
Definition mutationFrame (multisendData : Data.MultisendData) : M Frame Outcome.Result :=
  if negb (ethereum env) then throw (newError "MetaMask not available")
  else
    let* accounts :=
      liftW (ask (EthRequest "eth_accounts") (requestAccountsReply env)) in
    if Nat.eqb (List.length accounts) 0 then
      throw (newError "Wallet not connected")
    else
      let* chainId :=
        liftW (ask (EthRequest "eth_chainId") (requestChainIdReply env)) in
      if negb (String.eqb chainId "0x279f") then
        throw (newError "Please switch to Monad Testnet")
      else mutationBody multisendData.

Definition mutationFn (multisendData : Data.MultisendData) : M World Outcome.Result :=
  fun w => let '(r, f) := mutationFrame multisendData (mkFrame w [] []) in
           (r, world f).

Definition onSuccess (data : Outcome.Result) (ui : Multisender) : Multisender :=
  let successCount := List.length (Outcome.transactionHashes data) in
  let totalCount := List.length (recipients ui) in
  setRecipients []
    (toast
       (if Nat.eqb (List.length (Outcome.failedTransactions data)) 0 then
          mkToast "Multisend Completed!"
            ("Successfully sent to all " ++ pretty totalCount ++ " recipients") false
        else
          mkToast "Multisend Partially Completed"
            (pretty successCount ++ "/" ++ pretty totalCount
             ++ " transactions successful") true)
       ui).

Definition onError (error : Error) (ui : Multisender) : Multisender :=
  toast (mkToast "Multisend Failed" (message error) true) ui.

(** [sendMutation.mutate]: [mutationFn] is run to its end, then one of the
    two callbacks. *)
Definition mutate (multisendData : Data.MultisendData) (ui : Multisender) (w : World)
  : Multisender * World :=
  match mutationFn multisendData w with
  | (Ok data, w') => (onSuccess data ui, w')
  | (Throw error, w') => (onError error ui, w')
  end.

Definition noRecipients : Toast :=
  mkToast "No Recipients" "Please add at least one recipient" true.
Definition tokenNotSelected : Toast :=
  mkToast "Token Not Selected" "Please select an ERC-20 token to send" true.
Definition walletNotFound : Toast :=
  mkToast "Wallet Not Found" "Please install MetaMask or compatible wallet" true.
Definition walletNotConnected : Toast :=
  mkToast "Wallet Not Connected" "Please connect your wallet first" true.
Definition walletError : Toast :=
  mkToast "Wallet Error" "Failed to connect to wallet" true.

(** [handleSendToMultiple]; the [try] block holds everything from the
    account request on, and only that request can throw in it. *)
Definition handleSendToMultiple (ui : Multisender) (w : World) : Multisender * World :=
  if Nat.eqb (List.length (recipients ui)) 0 then (toast noRecipients ui, w)
  else if bool_decide (tokenType ui = erc20) && Js.falsy (tokenAddress ui) then
    (toast tokenNotSelected ui, w)
  else if negb (ethereum env) then (toast walletNotFound ui, w)
  else
    match ask (EthRequest "eth_accounts") (requestAccountsReply env) w with
    | (Throw error, w1) => (toast walletError ui, w1)
    | (Ok [], w1) => (toast walletNotConnected ui, w1)
    | (Ok (account0 :: _), w1) =>
        if negb (confirmAnswer env) then (ui, w1)
        else
          let multisendData :=
            Data.mk (recipients ui) (totalAmountString env (recipients ui))
              (tokenType ui)
              (if bool_decide (tokenType ui = erc20) then Some (tokenAddress ui) else None)
              (tokenSymbol ui) account0 in
          mutate multisendData ui w1
    end.

End Batch.

(** ** A concrete environment, for running the code *)

Definition isHexDigit (c : ascii) : bool :=
  let n := nat_of_ascii c in
  (Nat.leb 48 n && Nat.leb n 57) || (Nat.leb 65 n && Nat.leb n 70)
  || (Nat.leb 97 n && Nat.leb n 102).

(** The words of the specification for a well-formed address: a
    42-character [0x]-prefixed hexadecimal string. *)
Definition wellFormedAddress (s : string) : bool :=
  match s with
  | String "0" (String "x" digits) =>
      Nat.eqb (String.length digits) 40
      && forallb isHexDigit (list_ascii_of_string digits)
  | _ => false
  end.

(** Amounts written as digits with an optional fraction of at most 18
    digits, in base units; any other text is refused. *)
Definition decimalToWei (s : string) : Error + Z :=
  let '(ip, r1) := Js.spanDigits s in
  let '(fp, r2) :=
    match r1 with
    | String "." r => Js.spanDigits r
    | _ => (EmptyString, r1)
    end in
  if (Js.falsy ip && Js.falsy fp) || negb (Js.falsy r2) then
    inl (newError "invalid number value")
  else if Nat.ltb 18 (String.length fp) then
    inl (newError "too many decimal places")
  else inr (Z.of_N (Js.digitsValue 0 (ip ++ fp)) * 10 ^ (18 - Z.of_nat (String.length fp)))%Z.

Definition lastEvent (tr : list Event) : option Event := last tr.

Definition userDenied : Error := mkError (Some 4001%Z) "User denied transaction signature".

Definition demoSend (declined : list string) (tr : list Event) : Error + string :=
  match lastEvent tr with
  | Some (SendTransaction _ tx) =>
      if existsb (String.eqb (to tx)) declined then inl userDenied
      else inr ("0xhash" ++ to tx)
  | Some (Transfer _ _ _ recipient _) =>
      if existsb (String.eqb recipient) declined then inl userDenied
      else inr ("0xhash" ++ recipient)
  | _ => inl (newError "unexpected request")
  end.

Definition sender : string := addr40 "5".

(** The wallet of the browser: whether one is injected, the accounts it has
    authorized, its chain, and what its user answers to the dialog. *)
Record Wallet := mkWallet {
  present : bool;
  held : list string;
  chain : string;
  confirms : bool
}.

Definition connected : Wallet := mkWallet true [sender] "0x279f" true.

(** The accounts an instance reports: those of the wallet when it was built
    on the wallet, none when it was built on the public node. *)
Definition demoAccounts (wallet : Wallet) (tr : list Event) : Error + list string :=
  match lastEvent tr with
  | Some (GetAccounts Injected) => inr (held wallet)
  | _ => inr []
  end.

Definition demoId : string := "3f0c2a9e-6b1d-4c57-9a40-0d5e8b7f1c22".

(** The wallet declines to sign for the recipients listed in [declined]; the
    sender holds [balance] base units of every token; the backend is out of
    reach for the requests selected by [apiFails]. *)
Definition envOf (wallet : Wallet) (declined : list string) (balance : Z)
    (apiFails : list Event -> option Error) : Env :=
  {| ethereum := present wallet;
     confirmAnswer := confirms wallet;
     isAddress := wellFormedAddress;
     toWei := decimalToWei;
     newContract := fun _ _ => None;
     deploy := fun _ => None;
     gasWithBuffer := fun g => (g * 12 / 10)%Z;
     totalAmountString := fun _ => "0";
     requestAccountsReply := fun _ => inr (held wallet);
     requestChainIdReply := fun _ => inr (chain wallet);
     getAccountsReply := demoAccounts wallet;
     estimateGasReply := fun _ => inr 21000%Z;
     sendTransactionReply := demoSend declined;
     balanceOfReply := fun _ => inr balance;
     transferReply := demoSend declined;
     estimateDeployReply := fun _ => inr 100000%Z;
     sendDeployReply := fun _ => inr (Deploy.mkDeployed (Some (addr40 "9")) None);
     randomUUID := fun _ => demoId;
     clock := fun tr => List.length tr;
     apiReply := apiFails |}.

Definition demoEnv (declined : list string) (balance : Z)
    (apiFails : list Event -> option Error) : Env :=
  envOf connected declined balance apiFails.

Definition emptyWorld : World := mkWorld ∅ None [].

Definition threeRecipients : list Recipient :=
  [mkRecipient (addr40 "1") "1"; mkRecipient (addr40 "2") "2";
   mkRecipient (addr40 "3") "3"].

Definition nativeData (rs : list Recipient) : Data.MultisendData :=
  Data.mk rs "0" native None "MON" sender.

Definition storageUnavailable : Error := newError "500: storage unavailable".

(** The backend is out of reach for the first [PUT] and for nothing else. *)
Definition failFirstPut (tr : list Event) : option Error :=
  match lastEvent tr with
  | Some (ApiPut _ _) =>
      if Nat.eqb (List.length (List.filter (fun ev => match ev with ApiPut _ _ => true | _ => false end) tr)) 1
      then Some storageUnavailable
      else None
  | _ => None
  end.

(** ** Statements and inputs used below *)

(** The conditions under which [addRecipient] refuses its input: the four
    tests of the function, in the words of their messages. *)
Definition refused (ui : Multisender) : Prop :=
  newAddress ui = "" \/ newAmount ui = ""
  \/ Js.startsWith "0x" (newAddress ui) = false
  \/ String.length (newAddress ui) <> 42
  \/ Js.isNaN (Js.parseFloat (newAmount ui)) = true
  \/ Js.leZero (Js.parseFloat (newAmount ui)) = true
  \/ (exists r, In r (recipients ui)
                /\ Js.toLowerCase (address r) = Js.toLowerCase (newAddress ui)).

(** A refusal: one destructive toast, the list untouched. *)
Definition rejectedWith (t : Toast) (ui ui' : Multisender) : Prop :=
  recipients ui' = recipients ui /\ toasts ui' = (toasts ui ++ [t])%list
  /\ destructive t = true.

(** The three-line text of the import example. *)
Definition threeLineText : string :=
  addr40 "1" ++ ",1.5" ++ String newline
    ("notanaddress,2" ++ String newline (addr40 "2" ++ ",-3")).

Definition entry (a m : string) (rs : list Recipient) : Multisender :=
  mkMultisender rs a m native "" "MON" [].

(** Forty times the letter z after [0x]: not hexadecimal. *)
Definition nonHexEntry : Multisender := entry (addr40 "z") "1" [].

Definition bookA : list Recipient := [mkRecipient (addr40 "a") "1"].



(** The same address as in [bookA], digits in capitals, a valid amount. *)
Definition duplicateEntry : Multisender :=
  entry (addr40 "A") "2" bookA.

Definition isDelay (ev : Event) : bool :=
  match ev with Delay _ => true | _ => false end.

(** A submission: a request to the wallet to sign and broadcast. *)
Definition isSubmission (ev : Event) : bool :=
  match ev with
  | SendTransaction _ _ | Transfer _ _ _ _ _ => true
  | _ => false
  end.

Definition isApi (ev : Event) : bool :=
  match ev with ApiPost _ | ApiPut _ _ => true | _ => false end.

(** [isNaN(x) || x <= 0] on the parsed amount. *)
Definition badAmount (s : string) : bool :=
  Js.isNaN (Js.parseFloat s) || Js.leZero (Js.parseFloat s).

(** The errors of the address and amount tests of the submitter. *)
Definition invalidInputError (e : Error) : bool :=
  String.prefix "Invalid recipient address: " (message e)
  || String.prefix "Invalid token address: " (message e)
  || String.prefix "Invalid amount: " (message e).

(** The error of the first input test of [sendTransaction] that fails. *)
Definition invalidNativeInput (env : Env) (to value : string) : Error :=
  if negb (isAddress env to) then newError ("Invalid recipient address: " ++ to)
  else newError ("Invalid amount: " ++ value).

(** The error of the first input test of [sendERC20Token] that fails. *)
Definition invalidTokenInput (env : Env) (token to amount : string) : Error :=
  if negb (isAddress env token) then newError ("Invalid token address: " ++ token)
  else if negb (isAddress env to) then newError ("Invalid recipient address: " ++ to)
  else newError ("Invalid amount: " ++ amount).


(** The instance a call of [lib/web3.ts] works with: the cached one, or the
    one it builds. *)
Definition instanceOf (env : Env) (w : World) : Provider :=
  match web3Instance w with
  | Some web3 => web3
  | None => if ethereum env then Injected else Rpc rpcUrl
  end.

(** The world after further requests: nothing else has changed. *)
Definition asked (evs : list Event) (w : World) : World :=
  mkWorld (store w) (web3Instance w) (trace w ++ evs).

(** What the [catch] clause of [sendTransaction] throws for a caught
    error. *)
Definition nativeRethrown (error : Error) : Error :=
  if hasCode error 4001 then newError "Transaction was rejected by user"
  else if hasCode error (-32603) then
    newError "Transaction failed - insufficient funds or gas"
  else if Js.includes "insufficient funds" (message error) then
    newError "Insufficient funds for transaction"
  else newError ("Transaction failed: " ++ messageOr error "Unknown error").

(** What the [catch] clause of [sendERC20Token] throws for a caught
    error. *)
Definition tokenRethrown (error : Error) : Error :=
  if hasCode error 4001 then newError "Transaction was rejected by user"
  else if Js.includes "insufficient" (message error) then
    newError "Insufficient token balance or gas"
  else if Js.includes "transfer amount exceeds balance" (message error) then
    newError "Insufficient token balance"
  else newError ("Token transfer failed: " ++ messageOr error "Unknown error").

Definition noWallet : Wallet := mkWallet false [] "0x279f" true.

Definition noWalletEnv : Env := envOf noWallet [] 0 (fun _ => None).

Definition allGood : list Event -> option Error := fun _ => None.

(** A wallet account holding 5 base units of every token. *)
Definition lowBalanceEnv : Env := demoEnv [] 5 allGood.

Definition tokenA : string := addr40 "7".

(** The world left by a call made without a wallet into an empty world: the
    instance built on the fallback node is cached. *)
Definition staleWorld : World := mkWorld ∅ (Some (Rpc rpcUrl)) [].

(** How a call of the submitter ends when it refuses an input, [invalid]
    being the error of the input test: nothing is submitted, and the error
    is that of the first step that fails, the wallet test, the account
    request made through the instance, the account test, then the input
    tests. *)
Definition refusedInput (env : Env) (w : World) (invalid : Error)
    (run : Res string * World) : Prop :=
  exists e evs,
    run = (Throw e, mkWorld (store w) (Some (instanceOf env w)) (trace w ++ evs))
    /\ existsb isSubmission evs = false
    /\ (ethereum env = false -> e = newError "MetaMask not available" /\ evs = []%list)
    /\ (ethereum env = true ->
        evs = [GetAccounts (instanceOf env w)]
        /\ match getAccountsReply env (trace w ++ evs) with
           | inl failure => e = failure
           | inr [] => e = newError "No wallet connected"
           | inr (_ :: _) => e = invalid
           end).

(** What the submitter may ask: no timer, no backend request. *)
Definition submitterEvent (ev : Event) : bool :=
  negb (isDelay ev) && negb (isApi ev).

(** The pause taken after a successful submission at index [i] of [n]. *)
Definition pauseAfter (i n : nat) : list Event :=
  if Nat.ltb i (n - 1) then [Delay 2000] else [].

(** The outcome of each recipient of a run, in submission order: the hash
    returned for it, or none when its submission failed. *)
Definition Outcomes := list (Recipient * option string).

Fixpoint hashesOf (os : Outcomes) : list string :=
  match os with
  | [] => []
  | (_, Some h) :: rest => h :: hashesOf rest
  | (_, None) :: rest => hashesOf rest
  end.

Fixpoint failedOf (os : Outcomes) : list string :=
  match os with
  | [] => []
  | (_, Some _) :: rest => failedOf rest
  | (r, None) :: rest => address r :: failedOf rest
  end.

(** The two wallet requests made by [mutationFn] before the run. *)
Definition walletChecks : list Event :=
  [EthRequest "eth_accounts"; EthRequest "eth_chainId"].

Definition isEthRequest (ev : Event) : bool :=
  match ev with EthRequest _ => true | _ => false end.

(** Three recipients, the wallet declining the second. *)
Definition mixedEnv : Env := demoEnv [addr40 "2"] 0 allGood.

Definition hashFor (c : ascii) : string := "0xhash" ++ addr40 c.

(** The record the backend of the concrete environment creates at time
    [t]. *)
Definition pendingRecord (rs : list Recipient) (t : nat) : Schema.MultisendTransaction :=
  Schema.mk demoId sender rs "0" native None "MON" None (Some []) None
    Schema.pending None t.

Definition mixedOutcome : Outcome.Result :=
  Outcome.mk (pendingRecord threeRecipients 3) Schema.partially_failed
    [hashFor "1"; hashFor "3"] [addr40 "2"].

(** Successive submissions are spaced: reading the trace, no submission
    follows another one without a [Delay 2000] in between.  [waiting] tells
    that a submission was seen and no pause since. *)
Fixpoint spaced (waiting : bool) (tr : list Event) : bool :=
  match tr with
  | [] => true
  | ev :: rest =>
      if isSubmission ev then negb waiting && spaced true rest
      else match ev with
           | Delay 2000 => spaced false rest
           | _ => spaced waiting rest
           end
  end.

Definition twoRecipients : list Recipient :=
  [mkRecipient (addr40 "1") "1"; mkRecipient (addr40 "2") "2"].

(** Two recipients, the wallet declining the first. *)
Definition firstDeclinedEnv : Env := demoEnv [addr40 "1"] 0 allGood.

Definition nativeTx (c : ascii) (wei : Z) : TxParams :=
  mkTxParams sender (addr40 c) wei None.

Definition oneRecipient : list Recipient := [mkRecipient (addr40 "1") "1"].

(** One recipient whose submission succeeds; the final update fails. *)
Definition failingStoreEnv : Env := demoEnv [] 0 failFirstPut.

(** The trace of the loop over [twoRecipients], started in an empty world. *)
Definition twoRunTrace (env : Env) : list Event :=
  trace (world (snd (forLoop env (nativeData twoRecipients) 2 0
                       (mkFrame emptyWorld [] [])))).

(** The frame in which [failingStoreEnv] leaves the run over [oneRecipient]. *)
Definition failingStoreRun : Res Outcome.Result * Frame :=
  mutationFrame failingStoreEnv (nativeData oneRecipient) (mkFrame emptyWorld [] []).

(** A wallet connected to another chain. *)
Definition wrongChainEnv : Env :=
  envOf (mkWallet true [sender] "0x1" true) [] 0 allGood.

(** A wallet connected to another chain, whose user declines the dialog. *)
Definition wrongChainDeclineEnv : Env :=
  envOf (mkWallet true [sender] "0x1" false) [] 0 allGood.

Definition readyBook : Multisender := entry "" "" threeRecipients.

Definition switchChain : Toast :=
  mkToast "Multisend Failed" "Please switch to Monad Testnet" true.

(** The classification of the terminal status, on the body of an update. *)
Definition statusMatches (body : Update.Body) (recipients : list Recipient) : Prop :=
  (Update.status body = Schema.confirmed <-> Update.failedAddresses body = []%list)
  /\ (Update.status body = Schema.failed
      <-> List.length (Update.failedAddresses body) = List.length recipients)
  /\ (Update.status body = Schema.partially_failed
      <-> Update.failedAddresses body <> []%list
          /\ List.length (Update.failedAddresses body) <> List.length recipients).

(** The record the backend creates for [multisendData] on a request that
    arrives when the trace is [tr]. *)
Definition created (env : Env) (multisendData : Data.MultisendData) (tr : list Event)
  : Schema.MultisendTransaction :=
  Schema.mk (randomUUID env tr) (Data.senderAddress multisendData)
    (Data.recipients multisendData) (Data.totalAmount multisendData)
    (Data.tokenType multisendData) (Data.tokenAddress multisendData)
    (Data.tokenSymbol multisendData) None (Some []) None Schema.pending None
    (clock env tr).

(** The error [apiRequest] throws on the answer of a route that does not
    find the record. *)
Definition notFound : Error := newError (pretty 404 ++ ": " ++ "Transaction not found").

(** ** Further statements: the recipient book *)

(** The addresses of a list, in lower case: what the duplicate test of
    [addRecipient] compares. *)
Definition lowerAddresses (rs : list Recipient) : list string :=
  map (fun r => Js.toLowerCase (address r)) rs.

(** The tests that [addRecipient] and the import have in common. *)
Definition basicFormat (r : Recipient) : Prop :=
  Js.startsWith "0x" (address r) = true
  /\ String.length (address r) = 42
  /\ Js.isNaN (Js.parseFloat (amount r)) = false.

(** The lines of a text that are not blank, in their order. *)
Definition keptLines (text : string) : list string :=
  List.filter (fun line => negb (Js.falsy (Js.trim line))) (Js.split newline text).

(** ** Further statements: the transaction submitter *)

(** A message that is one of [fixed], or starts with one of [prefixes]. *)
Definition knownMessage (fixed prefixes : list string) (m : string) : bool :=
  existsb (String.eqb m) fixed || existsb (fun p => String.prefix p m) prefixes.

(** The messages of the errors made in [sendTransaction]. *)
Definition nativeMessage : string -> bool :=
  knownMessage
    ["MetaMask not available"; "No wallet connected";
     "Transaction was rejected by user";
     "Transaction failed - insufficient funds or gas";
     "Insufficient funds for transaction"]
    ["Invalid recipient address: "; "Invalid amount: "; "Transaction failed: "].

(** The messages of the errors made in [sendERC20Token]. *)
Definition tokenMessage : string -> bool :=
  knownMessage
    ["MetaMask not available"; "No wallet connected";
     "Transaction was rejected by user"; "Insufficient token balance or gas";
     "Insufficient token balance"]
    ["Invalid token address: "; "Invalid recipient address: "; "Invalid amount: ";
     "Token transfer failed: "].

(** The [data] field of the transaction parameters: set for a non-empty
    string only. *)
Definition txData (data : option string) : option string :=
  match data with
  | Some d => if Js.falsy d then None else Some d
  | None => None
  end.

(** How many requests to sign and broadcast a trace holds. *)
Definition submissions (evs : list Event) : nat :=
  List.length (List.filter isSubmission evs).

(** How many pauses a trace holds. *)
Definition pauses (evs : list Event) : nat :=
  List.length (List.filter isDelay evs).

(** A wallet account holding plenty of every token. *)
Definition richEnv : Env := demoEnv [] (10 ^ 30) allGood.

(** A wallet that rejects the account request of an instance, a request of
    the same kind being open already. *)
Definition alreadyPending : Error :=
  mkError (Some (-32002)%Z) "Request of type eth_accounts already pending".

Definition busyWalletEnv : Env :=
  {| ethereum := true;
     confirmAnswer := true;
     isAddress := wellFormedAddress;
     toWei := decimalToWei;
     newContract := fun _ _ => None;
     deploy := fun _ => None;
     gasWithBuffer := fun g => (g * 12 / 10)%Z;
     totalAmountString := fun _ => "0";
     requestAccountsReply := fun _ => inr [sender];
     requestChainIdReply := fun _ => inr "0x279f";
     getAccountsReply := fun _ => inl alreadyPending;
     estimateGasReply := fun _ => inr 21000%Z;
     sendTransactionReply := demoSend [];
     balanceOfReply := fun _ => inr 0%Z;
     transferReply := demoSend [];
     estimateDeployReply := fun _ => inr 100000%Z;
     sendDeployReply := fun _ => inr (Deploy.mkDeployed (Some (addr40 "9")) None);
     randomUUID := fun _ => demoId;
     clock := fun tr => List.length tr;
     apiReply := allGood |}.

(** ** Further statements: the batch run *)

Definition isPut (ev : Event) : bool :=
  match ev with ApiPut _ _ => true | _ => false end.

(** The data [handleSendToMultiple] hands to the mutation. *)
Definition dataOf (env : Env) (ui : Multisender) (account0 : string)
  : Data.MultisendData :=
  Data.mk (recipients ui) (totalAmountString env (recipients ui)) (tokenType ui)
    (match tokenType ui with
     | erc20 => Some (tokenAddress ui)
     | native => None
     end)
    (tokenSymbol ui) account0.

(** The outcome of the run over [threeRecipients] that
    [handleSendToMultiple] starts: the record is created one request
    later. *)
Definition handlerOutcome : Outcome.Result :=
  Outcome.mk (pendingRecord threeRecipients 4) Schema.partially_failed
    [hashFor "1"; hashFor "3"] [addr40 "2"].

(** A connected wallet whose user declines the dialog. *)
Definition declineEnv : Env :=
  envOf (mkWallet true [sender] "0x279f" false) [] 0 allGood.

(** ** Further statements: contract deployment *)

Definition isDeploySend (ev : Event) : bool :=
  match ev with SendDeploy _ _ _ _ => true | _ => false end.

(** * Properties *)

Local Open Scope list_scope.

(** ** The recipient book *)

Lemma falsy_spec s : Js.falsy s = true <-> s = "".
Proof. destruct s; simpl; split; congruence. Qed.

Lemma someSameAddress_spec rs a :
  someSameAddress rs a = true <->
  exists r, In r rs /\ Js.toLowerCase (address r) = Js.toLowerCase a.
Proof.
  unfold someSameAddress. rewrite existsb_exists.
  split; intros (r & Hin & Heq); exists r; split; auto.
  - now apply String.eqb_eq.
  - now apply String.eqb_eq.
Qed.

Lemma addRecipient_cases ui :
  (refused ui /\ exists t, rejectedWith t ui (addRecipient ui))
  \/ (~ refused ui
      /\ recipients (addRecipient ui)
         = recipients ui ++ [mkRecipient (newAddress ui) (newAmount ui)]
      /\ toasts (addRecipient ui) = toasts ui).
Proof.
  unfold addRecipient, refused, rejectedWith.
  destruct (Js.falsy (newAddress ui)) eqn:Ha; simpl.
  { left. split; [left; now apply falsy_spec|]. eexists; simpl; eauto. }
  destruct (Js.falsy (newAmount ui)) eqn:Hm; simpl.
  { left. split; [right; left; now apply falsy_spec|]. eexists; simpl; eauto. }
  destruct (Js.startsWith "0x" (newAddress ui)) eqn:Hp; simpl.
  2:{ left. split; [auto 10|]. eexists; simpl; eauto. }
  destruct (Nat.eqb (String.length (newAddress ui)) 42) eqn:Hl; simpl.
  2:{ left. apply Nat.eqb_neq in Hl. split; [auto 10|]. eexists; simpl; eauto. }
  destruct (Js.isNaN (Js.parseFloat (newAmount ui))) eqn:Hn; simpl.
  { left. split; [auto 10|]. eexists; simpl; eauto. }
  destruct (Js.leZero (Js.parseFloat (newAmount ui))) eqn:Hz; simpl.
  { left. split; [auto 10|]. eexists; simpl; eauto. }
  destruct (someSameAddress (recipients ui) (newAddress ui)) eqn:Hd.
  { left. apply someSameAddress_spec in Hd. split; [auto 10|]. eexists; simpl; eauto. }
  right. split; [|simpl; auto].
  apply Nat.eqb_eq in Hl.
  intros [H|[H|[H|[H|[H|[H|H]]]]]]; try congruence.
  - apply falsy_spec in H. congruence.
  - apply falsy_spec in H. congruence.
  - apply someSameAddress_spec in H. congruence.
Qed.

(** C6 (amended): [addRecipient] refuses its input, with one error toast and
    the list unchanged, exactly when the address or the amount is empty, the
    address does not start with [0x] or is not 42 characters long, the
    amount parses to NaN or to a number at most zero, or the address is
    already listed up to case; the characters after [0x] are not examined.
    Otherwise the new recipient is appended after the earlier entries, which
    keep their order. *)
Theorem addRecipient_validation ui :
  (refused ui -> exists t, rejectedWith t ui (addRecipient ui))
  /\ (~ refused ui ->
      recipients (addRecipient ui)
      = recipients ui ++ [mkRecipient (newAddress ui) (newAmount ui)]
      /\ toasts (addRecipient ui) = toasts ui).
Proof.
  destruct (addRecipient_cases ui) as [[Hr Ht]|[Hn Ha]]; split; intros; tauto.
Qed.

Lemma addRecipient_validation_witness :
  (exists t, rejectedWith t (entry "0x12" "1" bookA) (addRecipient (entry "0x12" "1" bookA)))
  /\ recipients (addRecipient (entry (addr40 "b") "1.5" bookA))
     = bookA ++ [mkRecipient (addr40 "b") "1.5"].
Proof.
  split.
  - apply (proj1 (addRecipient_validation (entry "0x12" "1" bookA))).
    unfold refused; simpl. right; right; right; left. lia.
  - apply (proj2 (addRecipient_validation (entry (addr40 "b") "1.5" bookA))).
    unfold refused.
    intros [H|[H|[H|[H|[H|[H|(r & [Hr|[]] & H)]]]]]];
      try subst r; vm_compute in H; try discriminate H. contradiction.
Defined.

(** C6, as stated, fails: an address of 42 characters starting with [0x]
    whose other characters are not hexadecimal digits is accepted. *)
Lemma addRecipient_accepts_non_hex :
  wellFormedAddress (newAddress nonHexEntry) = false
  /\ recipients (addRecipient nonHexEntry) = [mkRecipient (addr40 "z") "1"]
  /\ toasts (addRecipient nonHexEntry) = [].
Proof. vm_compute. auto. Qed.

(** C7: on the three-line text the import keeps two recipients, the row with
    amount -3 among them, where the claim has one; [addRecipient] refuses
    that same row for its amount. *)
Theorem handleCSVUpload_three_lines :
  recipients (handleCSVUpload (Some threeLineText) emptyBook)
  = [mkRecipient (addr40 "1") "1.5"; mkRecipient (addr40 "2") "-3"]
  /\ toasts (handleCSVUpload (Some threeLineText) emptyBook) = [csvUploaded 2]
  /\ rejectedWith invalidAmount (entry (addr40 "2") "-3" [])
       (addRecipient (entry (addr40 "2") "-3" [])).
Proof. vm_compute. auto. Qed.




(** ** The transaction submitter *)

Lemma app_one_two {A} (l : list A) a b : (l ++ [a]) ++ [b] = l ++ [a; b].
Proof. now rewrite <- app_assoc. Qed.

Lemma app_two_three {A} (l : list A) a b c : (l ++ [a; b]) ++ [c] = l ++ [a; b; c].
Proof. now rewrite <- app_assoc. Qed.

Lemma prefix_app p s : String.prefix p (p ++ s)%string = true.
Proof.
  induction p as [|a p IH]; simpl.
  - now destruct s.
  - destruct (ascii_dec a a); [exact IH | congruence].
Qed.

Lemma pair_of_fst {A B} (p : A * B) a : fst p = a -> p = (a, snd p).
Proof. destruct p; simpl; congruence. Qed.

Lemma asked_nil w : asked [] w = w.
Proof. destruct w. unfold asked. simpl. now rewrite app_nil_r. Qed.

Lemma asked_asked evs1 evs2 w : asked evs2 (asked evs1 w) = asked (evs1 ++ evs2) w.
Proof. unfold asked. simpl. now rewrite app_assoc. Qed.

(** [initializeWeb3] returns the cached instance, or caches the one it
    builds; it asks nothing. *)
Lemma initializeWeb3_run env w :
  initializeWeb3 env w
  = (Ok (instanceOf env w), mkWorld (store w) (Some (instanceOf env w)) (trace w)).
Proof.
  unfold initializeWeb3, instanceOf, bind, gets, ret, setWeb3Instance, modify.
  destruct w as [st [web3|] tr]; simpl; [reflexivity|].
  now destruct (ethereum env).
Qed.

Lemma ask_run {A} ev (reply : list Event -> Error + A) w :
  ask ev reply w
  = match reply (trace w ++ [ev]) with
    | inl e => (Throw e, asked [ev] w)
    | inr a => (Ok a, asked [ev] w)
    end.
Proof.
  unfold ask, emit, call, bind, gets, modify, asked. simpl.
  now destruct (reply _).
Qed.

Lemma nativeRethrown_run {A} error (w : World) :
  (if hasCode error 4001 then
     throw (newError "Transaction was rejected by user")
   else if hasCode error (-32603) then
     throw (newError "Transaction failed - insufficient funds or gas")
   else if Js.includes "insufficient funds" (message error) then
     throw (newError "Insufficient funds for transaction")
   else
     throw (newError ("Transaction failed: " ++ messageOr error "Unknown error")%string))
    w
  = (@Throw A (nativeRethrown error), w).
Proof.
  unfold nativeRethrown.
  destruct (hasCode error 4001); [reflexivity|].
  destruct (hasCode error (-32603)); [reflexivity|].
  now destruct (Js.includes _ _).
Qed.

Lemma tokenRethrown_run {A} error (w : World) :
  (if hasCode error 4001 then
     throw (newError "Transaction was rejected by user")
   else if Js.includes "insufficient" (message error) then
     throw (newError "Insufficient token balance or gas")
   else if Js.includes "transfer amount exceeds balance" (message error) then
     throw (newError "Insufficient token balance")
   else
     throw (newError ("Token transfer failed: " ++ messageOr error "Unknown error")%string))
    w
  = (@Throw A (tokenRethrown error), w).
Proof.
  unfold tokenRethrown.
  destruct (hasCode error 4001); [reflexivity|].
  destruct (Js.includes "insufficient" _); [reflexivity|].
  now destruct (Js.includes _ _).
Qed.

(** Every way through [sendTransaction], read off its text: the result and
    the world it leaves, for each answer it may get. *)
Lemma sendTransaction_run env to value data w :
  let web3 := instanceOf env w in
  let after evs := mkWorld (store w) (Some web3) (trace w ++ evs) in
  sendTransaction env to value data w
  = if negb (ethereum env) then
      (Throw (newError "MetaMask not available"), after [])
    else
      match getAccountsReply env (trace w ++ [GetAccounts web3]) with
      | inl e => (Throw e, after [GetAccounts web3])
      | inr [] => (Throw (newError "No wallet connected"), after [GetAccounts web3])
      | inr (account0 :: _) =>
          if negb (isAddress env to) || badAmount value then
            (Throw (invalidNativeInput env to value), after [GetAccounts web3])
          else
            match toWei env value with
            | inl e => (Throw (nativeRethrown e), after [GetAccounts web3])
            | inr wei =>
                let tx := mkTxParams account0 to wei (txData data) in
                match estimateGasReply env
                        (trace w ++ [GetAccounts web3; EstimateGas web3 tx]) with
                | inl e =>
                    (Throw (nativeRethrown e),
                     after [GetAccounts web3; EstimateGas web3 tx])
                | inr _ =>
                    match sendTransactionReply env
                            (trace w ++ [GetAccounts web3; EstimateGas web3 tx;
                                         SendTransaction web3 tx]) with
                    | inl e =>
                        (Throw (nativeRethrown e),
                         after [GetAccounts web3; EstimateGas web3 tx;
                                SendTransaction web3 tx])
                    | inr h =>
                        (Ok h,
                         after [GetAccounts web3; EstimateGas web3 tx;
                                SendTransaction web3 tx])
                    end
                end
            end
      end.
Proof.
  cbn zeta. unfold sendTransaction. unfold bind at 1. rewrite initializeWeb3_run.
  destruct (ethereum env); cbn [negb]; [|unfold throw; now rewrite app_nil_r].
  unfold bind at 1. unfold getAccounts. rewrite ask_run. unfold asked.
  cbn [store trace web3Instance].
  destruct (getAccountsReply env _) as [e|[|account0 rest]]; try reflexivity.
  unfold invalidNativeInput, badAmount.
  destruct (isAddress env to); cbn [negb orb]; [|reflexivity].
  destruct (Js.isNaN (Js.parseFloat value) || Js.leZero (Js.parseFloat value));
    [reflexivity|].
  fold (txData data). unfold tryCatch, bind at 1, call.
  destruct (toWei env value) as [e|wei]; [apply nativeRethrown_run|].
  unfold ret at 1. unfold bind at 1. rewrite ask_run. unfold asked.
  cbn [store trace web3Instance]. rewrite app_one_two.
  destruct (estimateGasReply env _) as [e|gas]; [apply nativeRethrown_run|].
  unfold bind. rewrite ask_run. unfold asked.
  cbn [store trace web3Instance]. rewrite app_two_three.
  destruct (sendTransactionReply env _) as [e|h]; [apply nativeRethrown_run|].
  reflexivity.
Qed.

(** Every way through [sendERC20Token]. *)
Lemma sendERC20Token_run env token to amount decimals w :
  let web3 := instanceOf env w in
  let after evs := mkWorld (store w) (Some web3) (trace w ++ evs) in
  sendERC20Token env token to amount decimals w
  = if negb (ethereum env) then
      (Throw (newError "MetaMask not available"), after [])
    else
      match getAccountsReply env (trace w ++ [GetAccounts web3]) with
      | inl e => (Throw e, after [GetAccounts web3])
      | inr [] => (Throw (newError "No wallet connected"), after [GetAccounts web3])
      | inr (account0 :: _) =>
          if negb (isAddress env token) || negb (isAddress env to) || badAmount amount then
            (Throw (invalidTokenInput env token to amount), after [GetAccounts web3])
          else
            match newContract env tokenABI (Some token) with
            | Some e => (Throw (tokenRethrown e), after [GetAccounts web3])
            | None =>
                match toWei env amount with
                | inl e => (Throw (tokenRethrown e), after [GetAccounts web3])
                | inr wei =>
                    let query := [GetAccounts web3; BalanceOf web3 token account0] in
                    match balanceOfReply env (trace w ++ query) with
                    | inl e => (Throw (tokenRethrown e), after query)
                    | inr balance =>
                        if Z.ltb balance wei then
                          (Throw (tokenRethrown (newError "Insufficient token balance")),
                           after query)
                        else
                          let evs := query ++ [Transfer web3 token account0 to wei] in
                          match transferReply env (trace w ++ evs) with
                          | inl e => (Throw (tokenRethrown e), after evs)
                          | inr h => (Ok h, after evs)
                          end
                    end
                end
            end
      end.
Proof.
  cbn zeta. unfold sendERC20Token. unfold bind at 1. rewrite initializeWeb3_run.
  destruct (ethereum env); cbn [negb]; [|unfold throw; now rewrite app_nil_r].
  unfold bind at 1. unfold getAccounts. rewrite ask_run. unfold asked.
  cbn [store trace web3Instance].
  destruct (getAccountsReply env _) as [e|[|account0 rest]]; try reflexivity.
  unfold invalidTokenInput, badAmount.
  destruct (isAddress env token); cbn [negb orb]; [|reflexivity].
  destruct (isAddress env to); cbn [negb orb]; [|reflexivity].
  destruct (Js.isNaN (Js.parseFloat amount) || Js.leZero (Js.parseFloat amount));
    [reflexivity|].
  unfold tryCatch, bind at 1, mayThrow.
  destruct (newContract env tokenABI (Some token)) as [e|]; [apply tokenRethrown_run|].
  unfold ret at 1. unfold bind at 1, call.
  destruct (toWei env amount) as [e|wei]; [apply tokenRethrown_run|].
  unfold ret at 1. unfold bind at 1. rewrite ask_run. unfold asked.
  cbn [store trace web3Instance app]. rewrite app_one_two.
  destruct (balanceOfReply env _) as [e|balance]; [apply tokenRethrown_run|].
  destruct (Z.ltb balance wei); [unfold throw at 1; apply tokenRethrown_run|].
  unfold bind. rewrite ask_run. unfold asked.
  cbn [store trace web3Instance]. rewrite app_two_three.
  destruct (transferReply env _) as [e|h]; [apply tokenRethrown_run|].
  reflexivity.
Qed.

(** Every way through [deployContract]. *)
Lemma deployContract_run env bytecode abi args w :
  let web3 := instanceOf env w in
  let after evs := mkWorld (store w) (Some web3) (trace w ++ evs) in
  let tx := Deploy.mkDeployment abi bytecode args in
  deployContract env bytecode abi args w
  = if negb (ethereum env) then
      (Throw (newError "MetaMask not available"), after [])
    else
      match getAccountsReply env (trace w ++ [GetAccounts web3]) with
      | inl e => (Throw e, after [GetAccounts web3])
      | inr [] => (Throw (newError "No wallet connected"), after [GetAccounts web3])
      | inr (account0 :: _) =>
          match newContract env abi None with
          | Some e => (Throw e, after [GetAccounts web3])
          | None =>
              match deploy env tx with
              | Some e => (Throw e, after [GetAccounts web3])
              | None =>
                  let estimate := [GetAccounts web3; EstimateDeploy web3 tx account0] in
                  match estimateDeployReply env (trace w ++ estimate) with
                  | inl e => (Throw e, after estimate)
                  | inr gas =>
                      let evs :=
                        estimate
                        ++ [SendDeploy web3 tx account0 (gasWithBuffer env gas)] in
                      match sendDeployReply env (trace w ++ evs) with
                      | inl e => (Throw e, after evs)
                      | inr deployed =>
                          (Ok (Deploy.mkResult
                                 (default ""%string (Deploy.optionsAddress deployed))
                                 (default ""%string (Deploy.deployedHash deployed))),
                           after evs)
                      end
                  end
              end
          end
      end.
Proof.
  cbn zeta. unfold deployContract. unfold bind at 1. rewrite initializeWeb3_run.
  destruct (ethereum env); cbn [negb]; [|unfold throw; now rewrite app_nil_r].
  unfold bind at 1. unfold getAccounts. rewrite ask_run. unfold asked.
  cbn [store trace web3Instance].
  destruct (getAccountsReply env _) as [e|[|account0 rest]]; try reflexivity.
  unfold bind at 1, mayThrow.
  destruct (newContract env abi None) as [e|]; [reflexivity|].
  unfold ret at 1. unfold bind at 1.
  destruct (deploy env _) as [e|]; [reflexivity|].
  unfold ret at 1. unfold bind at 1. rewrite ask_run. unfold asked.
  cbn [store trace web3Instance app]. rewrite app_one_two.
  destruct (estimateDeployReply env _) as [e|gas]; [reflexivity|].
  unfold bind. rewrite ask_run. unfold asked.
  cbn [store trace web3Instance]. rewrite app_two_three.
  destruct (sendDeployReply env _) as [e|deployed]; reflexivity.
Qed.




Lemma invalidNativeInput_error env to value :
  invalidInputError (invalidNativeInput env to value) = true.
Proof.
  unfold invalidInputError, invalidNativeInput.
  destruct (negb (isAddress env to)); cbn [message newError]; rewrite prefix_app;
    [reflexivity | now rewrite orb_true_r].
Qed.

Lemma invalidTokenInput_error env token to amount :
  invalidInputError (invalidTokenInput env token to amount) = true.
Proof.
  unfold invalidInputError, invalidTokenInput.
  destruct (negb (isAddress env token)); [|destruct (negb (isAddress env to))];
    cbn [message newError]; rewrite prefix_app;
    rewrite ?orb_true_r; reflexivity.
Qed.

(** C10 (amended): when the recipient address (or the token address) is not
    accepted by [isAddress], or the amount parses to NaN or to a number at
    most zero, [sendTransaction] and [sendERC20Token] throw without any
    request to sign or broadcast.  The error is the one of the first input
    test that fails, an invalid-address or invalid-amount error, when a
    wallet is present and the account request made through the instance in
    use answers an account; it is [MetaMask not available] when no wallet is
    present, the error of the account request when that request fails, and
    [No wallet connected] when it answers no account. *)
Theorem submitter_rejects_invalid_input env w :
  (forall to value data,
      isAddress env to = false \/ badAmount value = true ->
      refusedInput env w (invalidNativeInput env to value)
        (sendTransaction env to value data w)
      /\ invalidInputError (invalidNativeInput env to value) = true)
  /\ (forall token to amount decimals,
      isAddress env token = false \/ isAddress env to = false
      \/ badAmount amount = true ->
      refusedInput env w (invalidTokenInput env token to amount)
        (sendERC20Token env token to amount decimals w)
      /\ invalidInputError (invalidTokenInput env token to amount) = true).
Proof.
  split.
  - intros to value data Hbad. split; [|apply invalidNativeInput_error].
    unfold refusedInput. rewrite sendTransaction_run. cbn zeta.
    destruct (ethereum env); cbn [negb].
    2:{ eexists _, []. repeat split; try discriminate; reflexivity. }
    assert (Hin : negb (isAddress env to) || badAmount value = true).
    { destruct Hbad as [-> | ->]; [reflexivity | apply orb_true_r]. }
    rewrite Hin.
    destruct (getAccountsReply env _) as [e|[|account0 rest]] eqn:Hacc;
      eexists _, [_]; (split; [reflexivity|]); (split; [reflexivity|]);
      (split; [discriminate|]); intros _; (split; [reflexivity|]);
      rewrite Hacc; reflexivity.
  - intros token to amount decimals Hbad. split; [|apply invalidTokenInput_error].
    unfold refusedInput. rewrite sendERC20Token_run. cbn zeta.
    destruct (ethereum env); cbn [negb].
    2:{ eexists _, []. repeat split; try discriminate; reflexivity. }
    assert (Hin : negb (isAddress env token) || negb (isAddress env to)
                  || badAmount amount = true).
    { destruct Hbad as [-> | [-> | ->]];
        [reflexivity | apply orb_true_iff; left; apply orb_true_r | apply orb_true_r]. }
    rewrite Hin.
    destruct (getAccountsReply env _) as [e|[|account0 rest]] eqn:Hacc;
      eexists _, [_]; (split; [reflexivity|]); (split; [reflexivity|]);
      (split; [discriminate|]); intros _; (split; [reflexivity|]);
      rewrite Hacc; reflexivity.
Qed.

Lemma submitter_rejects_invalid_input_witness :
  refusedInput lowBalanceEnv emptyWorld (invalidNativeInput lowBalanceEnv "bad" "1")
    (sendTransaction lowBalanceEnv "bad" "1" None emptyWorld)
  /\ invalidInputError (invalidNativeInput lowBalanceEnv "bad" "1") = true.
Proof.
  apply (proj1 (submitter_rejects_invalid_input lowBalanceEnv emptyWorld)).
  left. reflexivity.
Defined.

(** C10, as stated, fails: without a wallet a call with a malformed
    recipient address throws the wallet error; and after that call, which
    leaves the instance built on the fallback node behind, the same call
    made with a wallet and an authorized account throws the account error,
    the node reporting no account.  Neither is an invalid-address or
    invalid-amount error. *)
Lemma sendTransaction_no_wallet_error :
  isAddress noWalletEnv "bad" = false
  /\ sendTransaction noWalletEnv "bad" "1" None emptyWorld
     = (Throw (newError "MetaMask not available"), staleWorld)
  /\ invalidInputError (newError "MetaMask not available") = false
  /\ ethereum lowBalanceEnv = true
  /\ requestAccountsReply lowBalanceEnv [] = inr [sender]
  /\ sendTransaction lowBalanceEnv "bad" "1" None staleWorld
     = (Throw (newError "No wallet connected"),
        mkWorld ∅ (Some (Rpc rpcUrl)) [GetAccounts (Rpc rpcUrl)])
  /\ invalidInputError (newError "No wallet connected") = false.
Proof. vm_compute. auto 10. Qed.

(** ** The backend *)

Lemma apiPost_run env body w :
  let tr := trace w ++ [ApiPost body] in
  apiPost env body w
  = match apiReply env tr with
    | Some e => (Throw e, asked [ApiPost body] w)
    | None =>
        (Ok (created env body tr),
         mkWorld (<[Schema.id (created env body tr) := created env body tr]> (store w))
                 (web3Instance w) tr)
    end.
Proof.
  cbn zeta. unfold apiPost, apiRequest, emit, mayThrow, asked.
  unfold bind at 1. unfold modify at 1. unfold bind at 1. unfold gets at 1.
  cbn [store trace web3Instance]. unfold bind at 1.
  destruct (apiReply env _); [reflexivity|].
  reflexivity.
Qed.

Lemma apiPut_run env id body w :
  let tr := trace w ++ [ApiPut id body] in
  apiPut env id body w
  = match apiReply env tr with
    | Some e => (Throw e, asked [ApiPut id body] w)
    | None =>
        match store w !! id with
        | None => (Throw notFound, asked [ApiPut id body] w)
        | Some r =>
            (Ok (merge body r),
             mkWorld (<[id := merge body r]> (store w)) (web3Instance w) tr)
        end
    end.
Proof.
  cbn zeta. unfold apiPut, apiRequest, emit, mayThrow, asked.
  unfold bind at 1. unfold modify at 1. unfold bind at 1. unfold gets at 1.
  cbn [store trace web3Instance]. unfold bind at 1.
  destruct (apiReply env _); [reflexivity|].
  unfold ret at 1. unfold bind at 1.
  unfold putMultisend, tryCatch, updateMultisendTransaction.
  unfold bind at 1. unfold bind at 1. unfold gets at 1. cbn [store].
  destruct (store w !! id); reflexivity.
Qed.

(** ** The submission loop *)

Lemma submissions_app evs1 evs2 :
  submissions (evs1 ++ evs2) = submissions evs1 + submissions evs2.
Proof. unfold submissions. now rewrite List.filter_app, length_app. Qed.

Lemma pauses_app evs1 evs2 : pauses (evs1 ++ evs2) = pauses evs1 + pauses evs2.
Proof. unfold pauses. now rewrite List.filter_app, length_app. Qed.

Lemma submitter_events_quiet evs :
  forallb submitterEvent evs = true ->
  pauses evs = 0 /\ forallb (fun ev => negb (isApi ev)) evs = true
  /\ existsb isDelay evs = false
  /\ forall ms, ~ In (Delay ms) evs.
Proof.
  induction evs as [|ev evs IH]; simpl; intros H; [auto|].
  apply andb_true_iff in H as [Hev Hrest]. destruct (IH Hrest) as (Hp & Ha & He & Hd).
  unfold submitterEvent in Hev. apply andb_true_iff in Hev as [Hnd Hna].
  apply negb_true_iff in Hnd. repeat split.
  - unfold pauses in *. simpl. now rewrite Hnd.
  - now rewrite Hna, Ha.
  - now rewrite Hnd, He.
  - intros ms [->|Hin]; [discriminate Hnd | exact (Hd ms Hin)].
Qed.

Ltac leaf :=
  intros [= <- <-]; eexists; split; [reflexivity|];
  split; [reflexivity|]; split; [cbv; lia|]; intros; first [discriminate | reflexivity].

(** What a call of either submitter leaves: the store as it was, the
    instance cached, and a few requests, among them at most one to sign,
    exactly one when a hash is returned. *)
Lemma sendTransaction_asks env to value data w r w' :
  sendTransaction env to value data w = (r, w') ->
  exists evs,
    w' = mkWorld (store w) (Some (instanceOf env w)) (trace w ++ evs)
    /\ forallb submitterEvent evs = true
    /\ submissions evs <= 1
    /\ (forall h, r = Ok h -> submissions evs = 1).
Proof.
  rewrite sendTransaction_run. cbn zeta.
  destruct (negb (ethereum env)); [leaf|].
  destruct (getAccountsReply env _) as [e|[|account0 rest]]; try leaf.
  destruct (negb (isAddress env to) || badAmount value); [leaf|].
  destruct (toWei env value) as [e|wei]; [leaf|].
  destruct (estimateGasReply env _) as [e|gas]; [leaf|].
  destruct (sendTransactionReply env _) as [e|h]; leaf.
Qed.

Lemma sendERC20Token_asks env token to amount decimals w r w' :
  sendERC20Token env token to amount decimals w = (r, w') ->
  exists evs,
    w' = mkWorld (store w) (Some (instanceOf env w)) (trace w ++ evs)
    /\ forallb submitterEvent evs = true
    /\ submissions evs <= 1
    /\ (forall h, r = Ok h -> submissions evs = 1).
Proof.
  rewrite sendERC20Token_run. cbn zeta.
  destruct (negb (ethereum env)); [leaf|].
  destruct (getAccountsReply env _) as [e|[|account0 rest]]; try leaf.
  destruct (negb (isAddress env token) || negb (isAddress env to) || badAmount amount);
    [leaf|].
  destruct (newContract env tokenABI (Some token)) as [e|]; [leaf|].
  destruct (toWei env amount) as [e|wei]; [leaf|].
  destruct (balanceOfReply env _) as [e|balance]; [leaf|].
  destruct (Z.ltb balance wei); [leaf|].
  destruct (transferReply env _) as [e|h]; leaf.
Qed.

Lemma submit_asks env data recipient w r w' :
  submit env data recipient w = (r, w') ->
  exists evs,
    w' = mkWorld (store w) (Some (instanceOf env w)) (trace w ++ evs)
    /\ forallb submitterEvent evs = true
    /\ submissions evs <= 1
    /\ (forall h, r = Ok h -> submissions evs = 1).
Proof.
  unfold submit. destruct (Data.tokenType data).
  - apply sendTransaction_asks.
  - apply sendERC20Token_asks.
Qed.

(** One turn of the loop, in terms of the call of the submitter: on a hash
    the hash is pushed and the pause is taken unless the turn is the last,
    on an error the address is pushed and nothing else happens. *)
Lemma loopBody_submit env data i recipient f :
  Data.recipients data !! i = Some recipient ->
  loopBody env data i f
  = match submit env data recipient (world f) with
    | (Ok h, w1) =>
        (Ok tt,
         mkFrame (asked (pauseAfter i (List.length (Data.recipients data))) w1)
                 (transactionHashes f ++ [h]) (failedTransactions f))
    | (Throw _, w1) =>
        (Ok tt, mkFrame w1 (transactionHashes f) (failedTransactions f ++ [address recipient]))
    end.
Proof.
  intros Hi. unfold loopBody. rewrite Hi.
  unfold tryCatch, bind, liftW.
  destruct (submit env data recipient (world f)) as [[h|e] w1]; [|reflexivity].
  unfold pushHash, modify, pauseAfter.
  cbn [world transactionHashes failedTransactions].
  destruct (Nat.ltb i (List.length (Data.recipients data) - 1)).
  - reflexivity.
  - unfold ret. now rewrite asked_nil.
Qed.

(** What a frame and a trace become when recipient [r] is given outcome [h]. *)
Lemma loopBody_run env data i recipient f :
  Data.recipients data !! i = Some recipient ->
  exists evs (h : option string) inst,
    loopBody env data i f
    = (Ok tt, mkFrame (mkWorld (store (world f)) inst (trace (world f) ++ evs))
                (transactionHashes f ++ hashesOf [(recipient, h)])
                (failedTransactions f ++ failedOf [(recipient, h)]))
    /\ forallb (fun ev => negb (isApi ev)) evs = true
    /\ submissions evs <= 1
    /\ (is_Some h -> submissions evs = 1)
    /\ (h = None -> pauses evs = 0)
    /\ pauses evs <= 1
    /\ (pauses evs = 1 -> S i < List.length (Data.recipients data))
    /\ (forall ms, In (Delay ms) evs -> ms = 2000).
Proof.
  intros Hi. rewrite (loopBody_submit _ _ _ _ _ Hi).
  destruct (submit env data recipient (world f)) as [r w1] eqn:Hrun.
  destruct (submit_asks _ _ _ _ _ _ Hrun) as (evs & -> & Hquiet & Hle & Hone).
  destruct (submitter_events_quiet evs Hquiet) as (Hp & Hna & _ & Hnd).
  destruct r as [h|e].
  - exists (evs ++ pauseAfter i (List.length (Data.recipients data))), (Some h),
           (Some (instanceOf env (world f))).
    unfold asked. cbn [store trace web3Instance hashesOf failedOf].
    rewrite <- app_assoc, app_nil_r.
    rewrite submissions_app, pauses_app, forallb_app, Hna, Hp, (Hone h eq_refl).
    split; [reflexivity|]. unfold pauseAfter.
    destruct (Nat.ltb_spec i (List.length (Data.recipients data) - 1)).
    + repeat split; intros; try reflexivity; try discriminate; try (cbv; lia); try lia.
      match goal with
      | Hin : In (Delay _) _ |- _ =>
          apply in_app_or in Hin as [Hin|[[= <-]|[]]];
          [destruct (Hnd _ Hin) | reflexivity]
      end.
    + repeat split; intros; try reflexivity; try discriminate; try (cbv; lia); try lia.
      match goal with
      | Hin : In (Delay _) _ |- _ =>
          rewrite app_nil_r in Hin; destruct (Hnd _ Hin)
      end.
  - exists evs, None, (Some (instanceOf env (world f))).
    cbn [hashesOf failedOf]. rewrite app_nil_r, Hp.
    split; [reflexivity|].
    repeat split; intros; try reflexivity; try discriminate; try lia; try assumption.
    + match goal with Hs : is_Some None |- _ => destruct Hs as [x [=]] end.
    + exfalso. eapply Hnd. eassumption.
Qed.

Lemma outcomes_length (os : Outcomes) :
  List.length (hashesOf os) + List.length (failedOf os) = List.length os.
Proof.
  induction os as [|[r [h|]] os IH]; simpl; lia.
Qed.

Lemma hashesOf_cons p (os : Outcomes) : hashesOf (p :: os) = hashesOf [p] ++ hashesOf os.
Proof. destruct p as [r [h|]]; reflexivity. Qed.

Lemma failedOf_cons p (os : Outcomes) : failedOf (p :: os) = failedOf [p] ++ failedOf os.
Proof. destruct p as [r [h|]]; reflexivity. Qed.

(** [n] turns from index [i]: the loop returns, the store is untouched, each
    recipient met adds one entry to exactly one of the two arrays, and what
    is asked meanwhile is counted. *)
Lemma forLoop_run env data n :
  forall i f,
    i + n <= List.length (Data.recipients data) ->
    exists (os : Outcomes) evs inst,
      forLoop env data n i f
      = (Ok tt, mkFrame (mkWorld (store (world f)) inst (trace (world f) ++ evs))
                  (transactionHashes f ++ hashesOf os)
                  (failedTransactions f ++ failedOf os))
      /\ map fst os = take n (drop i (Data.recipients data))
      /\ forallb (fun ev => negb (isApi ev)) evs = true
      /\ submissions evs <= n
      /\ List.length (hashesOf os) <= submissions evs
      /\ pauses evs <= List.length (hashesOf os)
      /\ pauses evs <= List.length (Data.recipients data) - 1 - i
      /\ (forall ms, In (Delay ms) evs -> ms = 2000).
Proof.
  induction n as [|n IH]; intros i f Hle.
  - exists [], [], (web3Instance (world f)). simpl. rewrite !app_nil_r, take_0.
    destruct f as [[st inst tr] hs fs].
    repeat split; try (cbv; lia); intros ms [].
  - assert (Hi : is_Some (Data.recipients data !! i)) by (apply lookup_lt_is_Some; lia).
    destruct Hi as [r Hi].
    destruct (loopBody_run env data i r f Hi)
      as (evs1 & h & inst1 & Hbody & Hna1 & Hs1 & Hone & Hnone & Hp1 & Hlast & Hd1).
    match type of Hbody with _ = (_, ?f1) =>
      destruct (IH (S i) f1 ltac:(lia))
        as (os & evs2 & inst2 & Hloop & Hmap & Hna2 & Hs2 & Hh2 & Hp2 & Hb2 & Hd2)
    end.
    cbn [world store trace transactionHashes failedTransactions] in Hloop.
    exists ((r, h) :: os), (evs1 ++ evs2), inst2.
    rewrite (drop_S _ _ _ Hi). cbn [take forLoop]. unfold bind at 1.
    rewrite Hbody, Hloop, (hashesOf_cons (r, h) os), (failedOf_cons (r, h) os).
    rewrite <- !app_assoc, submissions_app, pauses_app, forallb_app, Hna1, Hna2.
    rewrite length_app.
    assert (Hh1 : List.length (hashesOf [(r, h)]) <= submissions evs1
                  /\ pauses evs1 <= List.length (hashesOf [(r, h)])).
    { destruct h as [h|]; simpl.
      - rewrite (Hone ltac:(eauto)). lia.
      - rewrite (Hnone eq_refl). lia. }
    split; [reflexivity|]. split; [simpl; now rewrite Hmap|].
    repeat split; try lia.
    intros ms Hin. apply in_app_or in Hin as [Hin|Hin]; eauto.
Qed.

(** The loop in two parts: [k] turns, then the rest. *)
Lemma forLoop_split env data k m i f :
  forLoop env data (k + m) i f
  = (forLoop env data k i ;; forLoop env data m (i + k)) f.
Proof.
  revert i f. induction k as [|k IH]; intros i f; simpl.
  - unfold bind, ret. now rewrite Nat.add_0_r.
  - unfold bind. destruct (loopBody env data i f) as [[[]|e] f1]; [|reflexivity].
    rewrite IH. unfold bind. now replace (S i + k) with (i + S k) by lia.
Qed.

(** ** The batch run *)

(** The [try] block: the loop returns, then the final update decides. *)
Lemma tryBlock_run env data record w :
  exists (os : Outcomes) evs inst,
    map fst os = Data.recipients data
    /\ forallb (fun ev => negb (isApi ev)) evs = true
    /\ submissions evs <= List.length (Data.recipients data)
    /\ List.length (hashesOf os) <= submissions evs
    /\ pauses evs <= List.length (hashesOf os)
    /\ pauses evs <= List.length (Data.recipients data) - 1
    /\ (forall ms, In (Delay ms) evs -> ms = 2000)
    /\ forLoop env data (List.length (Data.recipients data)) 0 (mkFrame w [] [])
       = (Ok tt, mkFrame (mkWorld (store w) inst (trace w ++ evs))
                   (hashesOf os) (failedOf os))
    /\ tryBlock env data record (mkFrame w [] [])
       = let status := finalStatus (failedOf os) (Data.recipients data) in
         match apiPut env (Schema.id record)
                 (Update.mk status (hashesOf os) (failedOf os) (Some "0"%string))
                 (mkWorld (store w) inst (trace w ++ evs)) with
         | (Ok _, w') =>
             (Ok (Outcome.mk record status (hashesOf os) (failedOf os)),
              mkFrame w' (hashesOf os) (failedOf os))
         | (Throw e, w') => (Throw e, mkFrame w' (hashesOf os) (failedOf os))
         end.
Proof.
  destruct (forLoop_run env data (List.length (Data.recipients data)) 0
              (mkFrame w [] []) ltac:(lia))
    as (os & evs & inst & Hloop & Hmap & Hna & Hs & Hh & Hp & Hb & Hd).
  cbn [world store trace transactionHashes failedTransactions app] in Hloop.
  exists os, evs, inst. rewrite drop_0, firstn_all in Hmap. rewrite Nat.sub_0_r in Hb.
  repeat (split; [assumption|]).
  unfold tryBlock. unfold bind at 1. rewrite Hloop. simpl.
  unfold bind, gets, liftW, ret.
  cbn [world transactionHashes failedTransactions].
  destruct (apiPut env _ _ _) as [[r|e] w']; reflexivity.
Qed.

(** The [catch] clause always throws: the error of its own update when that
    update fails, the error it caught otherwise. *)
Lemma catchBlock_run env data record error w hs fs :
  catchBlock env data record error (mkFrame w hs fs)
  = match apiPut env (Schema.id record) (catchUpdate data hs) w with
    | (Ok _, w') => (Throw error, mkFrame w' hs fs)
    | (Throw e, w') => (Throw e, mkFrame w' hs fs)
    end.
Proof.
  unfold catchBlock, bind, gets, liftW, throw.
  cbn [world transactionHashes failedTransactions].
  destruct (apiPut env _ _ _) as [[r|e] w']; reflexivity.
Qed.

(** Every way through [mutationFn] once the wallet checks are passed: the
    creation request, the loop, the final update and, when that update
    fails, the update of the [catch] clause. *)
Lemma mutationBody_run env data w :
  let tr0 := trace w ++ [ApiPost data] in
  match apiReply env tr0 with
  | Some e =>
      mutationBody env data (mkFrame w [] [])
      = (Throw e, mkFrame (asked [ApiPost data] w) [] [])
  | None =>
      exists (os : Outcomes) evs inst,
        map fst os = Data.recipients data
        /\ forallb (fun ev => negb (isApi ev)) evs = true
        /\ submissions evs <= List.length (Data.recipients data)
        /\ List.length (hashesOf os) <= submissions evs
        /\ pauses evs <= List.length (hashesOf os)
        /\ pauses evs <= List.length (Data.recipients data) - 1
        /\ (forall ms, In (Delay ms) evs -> ms = 2000)
        /\ let record := created env data tr0 in
           let id := Schema.id record in
           forLoop env data (List.length (Data.recipients data)) 0
             (mkFrame (mkWorld (<[id := record]> (store w)) (web3Instance w) tr0) [] [])
           = (Ok tt, mkFrame (mkWorld (<[id := record]> (store w)) inst (tr0 ++ evs))
                       (hashesOf os) (failedOf os))
        /\ let record := created env data tr0 in
           let id := Schema.id record in
           let status := finalStatus (failedOf os) (Data.recipients data) in
           let final := Update.mk status (hashesOf os) (failedOf os) (Some "0"%string) in
           let fallback := catchUpdate data (hashesOf os) in
           let st1 := <[id := record]> (store w) in
           let tr1 := tr0 ++ evs ++ [ApiPut id final] in
           let tr2 := tr1 ++ [ApiPut id fallback] in
           let frame st tr := mkFrame (mkWorld st inst tr) (hashesOf os) (failedOf os) in
           mutationBody env data (mkFrame w [] [])
           = match apiReply env tr1 with
             | None =>
                 (Ok (Outcome.mk record status (hashesOf os) (failedOf os)),
                  frame (<[id := merge final record]> st1) tr1)
             | Some e1 =>
                 match apiReply env tr2 with
                 | Some e2 => (Throw e2, frame st1 tr2)
                 | None => (Throw e1, frame (<[id := merge fallback record]> st1) tr2)
                 end
             end
  end.
Proof.
  cbn zeta. unfold mutationBody. unfold bind, liftW.
  cbn [world transactionHashes failedTransactions].
  rewrite apiPost_run. cbn zeta.
  destruct (apiReply env (trace w ++ [ApiPost data])); [reflexivity|].
  set (record := created env data _).
  set (w1 := mkWorld _ _ _).
  destruct (tryBlock_run env data record w1)
    as (os & evs & inst & Hmap & Hna & Hs & Hh & Hp & Hb & Hd & Hloop & Htry).
  exists os, evs, inst. repeat (split; [assumption|]).
  unfold tryCatch. rewrite Htry. cbn zeta. rewrite apiPut_run. cbn zeta.
  subst w1. cbn [store trace web3Instance]. rewrite lookup_insert_eq.
  rewrite <- !app_assoc.
  destruct (apiReply env _); [|reflexivity].
  rewrite catchBlock_run, apiPut_run. cbn zeta. unfold asked.
  cbn [store trace web3Instance]. rewrite lookup_insert_eq.
  rewrite <- !app_assoc. cbn [app].
  destruct (apiReply env _); reflexivity.
Qed.

(** The wallet checks of [mutationFn]. *)
Lemma mutationFn_run env data w :
  mutationFn env data w
  = if negb (ethereum env) then (Throw (newError "MetaMask not available"), w)
    else
      match requestAccountsReply env (trace w ++ [EthRequest "eth_accounts"]) with
      | inl e => (Throw e, asked [EthRequest "eth_accounts"] w)
      | inr accounts =>
          if Nat.eqb (List.length accounts) 0 then
            (Throw (newError "Wallet not connected"), asked [EthRequest "eth_accounts"] w)
          else
            match requestChainIdReply env (trace w ++ walletChecks) with
            | inl e => (Throw e, asked walletChecks w)
            | inr chainId =>
                if negb (String.eqb chainId "0x279f") then
                  (Throw (newError "Please switch to Monad Testnet"), asked walletChecks w)
                else
                  let '(r, f) :=
                    mutationBody env data (mkFrame (asked walletChecks w) [] []) in
                  (r, world f)
            end
      end.
Proof.
  unfold mutationFn, mutationFrame, walletChecks.
  destruct (ethereum env); [|reflexivity]. cbn [negb].
  unfold bind at 1. unfold liftW at 1. cbn [world]. rewrite ask_run.
  destruct (requestAccountsReply env _) as [e|accounts]; [reflexivity|].
  cbn [transactionHashes failedTransactions].
  destruct (Nat.eqb (List.length accounts) 0); [reflexivity|].
  unfold bind at 1. unfold liftW at 1. cbn [world]. rewrite ask_run.
  unfold asked. cbn [store trace web3Instance]. rewrite !app_one_two.
  destruct (requestChainIdReply env _) as [e|chainId]; [reflexivity|].
  cbn [transactionHashes failedTransactions].
  destruct (String.eqb chainId "0x279f"); reflexivity.
Qed.

(** A run ends before the record is created, on an error and having asked
    the wallet only, or it is a run of [mutationBody] after the two wallet
    requests. *)
Lemma mutationFn_trace env data w r w' :
  mutationFn env data w = (r, w') ->
  (exists pre, w' = asked pre w /\ forallb isEthRequest pre = true
               /\ exists e, r = Throw e)
  \/ exists f, w' = world f
       /\ mutationBody env data (mkFrame (asked walletChecks w) [] []) = (r, f).
Proof.
  rewrite mutationFn_run.
  destruct (negb (ethereum env)).
  { intros [= <- <-]. left. exists []. rewrite asked_nil. eauto. }
  destruct (requestAccountsReply env _) as [e|accounts].
  { intros [= <- <-]. left. eexists. split; [reflexivity|]. eauto. }
  destruct (Nat.eqb _ 0).
  { intros [= <- <-]. left. eexists. split; [reflexivity|]. eauto. }
  destruct (requestChainIdReply env _) as [e|chainId].
  { intros [= <- <-]. left. eexists. split; [reflexivity|]. eauto. }
  destruct (negb (String.eqb _ _)).
  { intros [= <- <-]. left. eexists. split; [reflexivity|]. eauto. }
  destruct (mutationBody env data _) as [r0 f] eqn:Hbody.
  intros [= <- <-]. right. eauto.
Qed.

Ltac outerReply :=
  match goal with
  | |- (match apiReply ?env ?t with _ => _ end) = _ -> _ => destruct (apiReply env t)
  end.

(** When the run resolves, the loop has met every recipient, the outcome
    carries the two arrays and their status, and the stored record has been
    given the same three values. *)
Lemma mutationBody_ok env data w o f :
  mutationBody env data (mkFrame w [] []) = (Ok o, f) ->
  exists os : Outcomes,
    map fst os = Data.recipients data
    /\ Outcome.transactionHashes o = hashesOf os
    /\ Outcome.failedTransactions o = failedOf os
    /\ Outcome.status o = finalStatus (failedOf os) (Data.recipients data)
    /\ exists r,
         store (world f) !! Schema.id (Outcome.record o) = Some r
         /\ Schema.transactionHashes r = Some (hashesOf os)
         /\ Schema.failedAddresses r = Some (failedOf os)
         /\ Schema.status r = Outcome.status o.
Proof.
  pose proof (mutationBody_run env data w) as Hrun. cbn zeta in Hrun.
  destruct (apiReply env (trace w ++ [ApiPost data])).
  { rewrite Hrun. discriminate. }
  destruct Hrun as (os & evs & inst & Hmap & _ & _ & _ & _ & _ & _ & _ & ->).
  outerReply.
  { outerReply; discriminate. }
  intros [= <- <-]. exists os. cbn.
  repeat split; auto. eexists. rewrite lookup_insert_eq. repeat split.
Qed.

(** C1 (amended): after [k] of its [N] turns the submission loop has put
    exactly one entry for each of the first [k] recipients into one of the
    two arrays (its hash, or its address when the submission failed), so
    their lengths add up to [k], which is at most [N], and to [N] when the
    loop is over; no error of a turn leaves the loop.  When the run
    resolves, that is when the final update is accepted, the outcome and the
    stored record carry arrays whose lengths add up to [N]. *)
Theorem batch_outcome_count env data w :
  (forall k r fk,
     k <= List.length (Data.recipients data) ->
     forLoop env data k 0 (mkFrame w [] []) = (r, fk) ->
     r = Ok tt
     /\ (exists os : Outcomes,
           map fst os = take k (Data.recipients data)
           /\ transactionHashes fk = hashesOf os
           /\ failedTransactions fk = failedOf os)
     /\ List.length (transactionHashes fk) + List.length (failedTransactions fk) = k
     /\ forLoop env data (List.length (Data.recipients data)) 0 (mkFrame w [] [])
        = forLoop env data (List.length (Data.recipients data) - k) k fk)
  /\ (forall o w',
       mutationFn env data w = (Ok o, w') ->
       List.length (Outcome.transactionHashes o)
       + List.length (Outcome.failedTransactions o)
       = List.length (Data.recipients data)
       /\ exists r,
            store w' !! Schema.id (Outcome.record o) = Some r
            /\ Schema.transactionHashes r = Some (Outcome.transactionHashes o)
            /\ Schema.failedAddresses r = Some (Outcome.failedTransactions o)).
Proof.
  split.
  - intros k r fk Hk Hrun.
    destruct (forLoop_run env data k 0 (mkFrame w [] []) ltac:(lia))
      as (os & evs & inst & Hloop & Hmap & _).
    rewrite Hrun in Hloop. injection Hloop as -> ->.
    cbn [transactionHashes failedTransactions app].
    rewrite drop_0 in Hmap.
    split; [reflexivity|]. split; [eauto|]. split.
    + rewrite outcomes_length, <- (length_map fst), Hmap, length_take. lia.
    + replace (List.length (Data.recipients data))
        with (k + (List.length (Data.recipients data) - k)) at 1 by lia.
      rewrite forLoop_split. unfold bind. now rewrite Hrun.
  - intros o w' Hrun.
    destruct (mutationFn_trace _ _ _ _ _ Hrun) as [(pre & _ & _ & e & [=])|(f & -> & Hbody)].
    destruct (mutationBody_ok _ _ _ _ _ Hbody)
      as (os & Hmap & -> & -> & _ & r & Hr & Hh & Hf & _).
    split.
    + now rewrite outcomes_length, <- (length_map fst), Hmap.
    + eauto.
Qed.

Lemma batch_outcome_count_witness :
  (Ok tt = Ok tt
   /\ (exists os : Outcomes,
         map fst os = take 2 threeRecipients
         /\ transactionHashes
              (snd (forLoop mixedEnv (nativeData threeRecipients) 2 0
                      (mkFrame emptyWorld [] []))) = hashesOf os
         /\ failedTransactions
              (snd (forLoop mixedEnv (nativeData threeRecipients) 2 0
                      (mkFrame emptyWorld [] []))) = failedOf os)
   /\ List.length
        (transactionHashes
           (snd (forLoop mixedEnv (nativeData threeRecipients) 2 0
                   (mkFrame emptyWorld [] []))))
      + List.length
          (failedTransactions
             (snd (forLoop mixedEnv (nativeData threeRecipients) 2 0
                     (mkFrame emptyWorld [] [])))) = 2
   /\ forLoop mixedEnv (nativeData threeRecipients) 3 0 (mkFrame emptyWorld [] [])
      = forLoop mixedEnv (nativeData threeRecipients) (3 - 2) 2
          (snd (forLoop mixedEnv (nativeData threeRecipients) 2 0
                  (mkFrame emptyWorld [] []))))
  /\ (List.length (Outcome.transactionHashes mixedOutcome)
      + List.length (Outcome.failedTransactions mixedOutcome) = 3
      /\ exists r,
           store (snd (mutationFn mixedEnv (nativeData threeRecipients) emptyWorld))
             !! Schema.id (Outcome.record mixedOutcome) = Some r
           /\ Schema.transactionHashes r = Some (Outcome.transactionHashes mixedOutcome)
           /\ Schema.failedAddresses r = Some (Outcome.failedTransactions mixedOutcome)).
Proof.
  split.
  - apply (proj1 (batch_outcome_count mixedEnv (nativeData threeRecipients) emptyWorld)
             2 (Ok tt)).
    + simpl. lia.
    + apply pair_of_fst. vm_compute. reflexivity.
  - apply (proj2 (batch_outcome_count mixedEnv (nativeData threeRecipients) emptyWorld)).
    apply pair_of_fst. vm_compute. reflexivity.
Defined.

(** C1, as stated, fails: the loop over one recipient is over with one hash
    and no failure, the final update fails, and the record left by the
    update of the [catch] clause holds one hash and one failed address, two
    entries for one recipient. *)
Lemma failed_update_record_exceeds :
  transactionHashes (snd failingStoreRun) = [hashFor "1"]
  /\ failedTransactions (snd failingStoreRun) = []
  /\ List.length oneRecipient = 1
  /\ (fun r => (List.length <$> Schema.transactionHashes r,
                List.length <$> Schema.failedAddresses r))
     <$> (store (world (snd failingStoreRun)) !! demoId)
     = Some (Some 1, Some 1).
Proof. vm_compute. auto. Qed.

Lemma finalStatus_cases failed recipients :
  recipients <> [] ->
  (finalStatus failed recipients = Schema.confirmed <-> failed = [])
  /\ (finalStatus failed recipients = Schema.failed
      <-> List.length failed = List.length recipients)
  /\ (finalStatus failed recipients = Schema.partially_failed
      <-> failed <> [] /\ List.length failed <> List.length recipients).
Proof.
  intros Hne. unfold finalStatus.
  assert (HN : List.length recipients <> 0) by (destruct recipients; simpl; congruence).
  assert (Hnil : failed = [] <-> List.length failed = 0)
    by (destruct failed; simpl; split; congruence).
  destruct (Nat.eqb (List.length failed) 0) eqn:E0;
    [apply Nat.eqb_eq in E0 | apply Nat.eqb_neq in E0].
  - repeat split; intros; try congruence; try tauto; lia.
  - destruct (Nat.eqb (List.length failed) (List.length recipients)) eqn:E;
      [apply Nat.eqb_eq in E | apply Nat.eqb_neq in E];
      repeat split; intros; try congruence; try tauto.
Qed.

Lemma no_put_among (evs : list Event) id body :
  forallb (fun ev => negb (isApi ev)) evs = true -> ~ In (ApiPut id body) evs.
Proof.
  intros Hevs Hin. rewrite forallb_forall in Hevs.
  specialize (Hevs _ Hin). discriminate Hevs.
Qed.

Lemma catchUpdate_matches data hashes :
  Data.recipients data <> [] ->
  statusMatches (catchUpdate data hashes) (Data.recipients data).
Proof.
  intros Hne. unfold statusMatches, catchUpdate. cbn.
  rewrite length_map.
  assert (map address (Data.recipients data) <> [])
    by (destruct (Data.recipients data); simpl; congruence).
  repeat split; intros; try congruence; try tauto.
Qed.

(** The updates sent by a run, on either way out of the [try] block, carry
    a status that matches their failed addresses. *)
Lemma mutationBody_updates env data w r f :
  Data.recipients data <> [] ->
  mutationBody env data (mkFrame w [] []) = (r, f) ->
  exists evs,
    trace (world f) = trace w ++ evs
    /\ forall id body, In (ApiPut id body) evs ->
                       statusMatches body (Data.recipients data).
Proof.
  intros Hne. pose proof (mutationBody_run env data w) as Hrun. cbn zeta in Hrun.
  destruct (apiReply env (trace w ++ [ApiPost data])).
  { rewrite Hrun. intros [= <- <-]. exists [ApiPost data]. split; [reflexivity|].
    intros id body [H|[]]. discriminate H. }
  destruct Hrun as (os & evs & inst & Hmap & Hevs & _ & _ & _ & _ & _ & _ & ->).
  set (id0 := Schema.id _).
  set (final := Update.mk (finalStatus (failedOf os) (Data.recipients data))
                  (hashesOf os) (failedOf os) (Some "0"%string)).
  set (fallback := catchUpdate data (hashesOf os)).
  assert (Hfinal : statusMatches final (Data.recipients data))
    by (apply finalStatus_cases, Hne).
  assert (Hfallback : statusMatches fallback (Data.recipients data))
    by (apply catchUpdate_matches, Hne).
  assert (Hin : forall (rest : list Event) id body,
             (forall id' body', In (ApiPut id' body') rest ->
                                statusMatches body' (Data.recipients data)) ->
             In (ApiPut id body) ([ApiPost data] ++ evs ++ rest) ->
             statusMatches body (Data.recipients data)).
  { intros rest id body Hrest H. simpl in H. destruct H as [H|H]; [discriminate H|].
    apply in_app_or in H as [H|H]; [|eauto].
    destruct (no_put_among _ _ _ Hevs H). }
  assert (Hboth : forall id' body',
             In (ApiPut id' body') [ApiPut id0 final; ApiPut id0 fallback] ->
             statusMatches body' (Data.recipients data)).
  { intros id' body' [[= <- <-]|[[= <- <-]|[]]]; assumption. }
  outerReply.
  2:{ intros [= <- <-]. exists ([ApiPost data] ++ evs ++ [ApiPut id0 final]).
      cbn [world trace]. split; [now rewrite <- !app_assoc|].
      intros id body. apply Hin. intros id' body' [[= <- <-]|[]]. exact Hfinal. }
  outerReply; intros [= <- <-];
    exists ([ApiPost data] ++ evs ++ [ApiPut id0 final; ApiPut id0 fallback]);
    cbn [world trace]; (split; [now rewrite <- !app_assoc|]);
    intros id body; apply Hin; exact Hboth.
Qed.

(** C2: in a run over a non-empty list, every update of the record carries a
    status that is confirmed exactly when no address is listed as failed,
    failed exactly when as many addresses are listed as there are
    recipients, and partially failed in the remaining case; when the run
    resolves, its outcome is classified in the same way from the failures
    of the loop, and the stored record carries that status. *)
Theorem terminal_status env data w r w' :
  Data.recipients data <> [] ->
  mutationFn env data w = (r, w') ->
  (exists evs,
      trace w' = trace w ++ evs
      /\ forall id body, In (ApiPut id body) evs ->
                         statusMatches body (Data.recipients data))
  /\ (forall o, r = Ok o ->
       (Outcome.status o = Schema.confirmed <-> Outcome.failedTransactions o = [])
       /\ (Outcome.status o = Schema.failed
           <-> List.length (Outcome.failedTransactions o)
               = List.length (Data.recipients data))
       /\ (Outcome.status o = Schema.partially_failed
           <-> Outcome.failedTransactions o <> []
               /\ List.length (Outcome.failedTransactions o)
                  <> List.length (Data.recipients data))
       /\ exists rec, store w' !! Schema.id (Outcome.record o) = Some rec
                      /\ Schema.status rec = Outcome.status o).
Proof.
  intros Hne Hrun.
  destruct (mutationFn_trace _ _ _ _ _ Hrun) as [(pre & -> & Hpre & e & ->)|(f & -> & Hbody)].
  - split; [|discriminate]. exists pre. split; [reflexivity|].
    intros id body Hin. rewrite forallb_forall in Hpre.
    specialize (Hpre _ Hin). discriminate Hpre.
  - split.
    + destruct (mutationBody_updates _ _ _ _ _ Hne Hbody) as (evs & Htr & Hputs).
      exists (walletChecks ++ evs). rewrite Htr. cbn [asked trace].
      rewrite <- app_assoc. split; [reflexivity|].
      intros id body Hin. apply in_app_or in Hin as [Hin|Hin]; [|eauto].
      destruct Hin as [[=]|[[=]|[]]].
    + intros o ->.
      destruct (mutationBody_ok _ _ _ _ _ Hbody)
        as (os & Hmap & Hh & -> & -> & rec & Hr & _ & _ & Hs).
      destruct (finalStatus_cases (failedOf os) (Data.recipients data) Hne)
        as (H1 & H2 & H3).
      repeat split; try apply H1; try apply H2; try apply H3; eauto.
Qed.

Lemma terminal_status_witness :
  Outcome.status mixedOutcome = Schema.partially_failed
  <-> Outcome.failedTransactions mixedOutcome <> []
      /\ List.length (Outcome.failedTransactions mixedOutcome) <> 3.
Proof.
  apply (proj2 (terminal_status mixedEnv (nativeData threeRecipients) emptyWorld
                  (Ok mixedOutcome)
                  (snd (mutationFn mixedEnv (nativeData threeRecipients) emptyWorld))
                  ltac:(discriminate)
                  ltac:(apply pair_of_fst; vm_compute; reflexivity))
               mixedOutcome eq_refl).
Defined.

(** C5 (amended): turn [k] of the loop calls the submitter once, in the
    state left by the turns before it, and the submitter asks for no pause
    itself.  When the call returns a hash, the hash is pushed and a pause of
    2000 ms follows, unless the recipient is the last one; when the call
    throws, the address is pushed and the turn ends without a pause.  The
    next turn starts in the state so reached. *)
Theorem pause_after_success env data k recipient f :
  Data.recipients data !! k = Some recipient ->
  let N := List.length (Data.recipients data) in
  exists fk f',
    forLoop env data k 0 f = (Ok tt, fk)
    /\ forLoop env data (S k) 0 f = (Ok tt, f')
    /\ forLoop env data N 0 f = forLoop env data (N - S k) (S k) f'
    /\ exists r w1 evs,
         submit env data recipient (world fk) = (r, w1)
         /\ trace w1 = trace (world fk) ++ evs
         /\ existsb isDelay evs = false
         /\ match r with
            | Ok h =>
                f' = mkFrame (asked (if Nat.ltb (S k) N then [Delay 2000] else []) w1)
                             (transactionHashes fk ++ [h]) (failedTransactions fk)
            | Throw _ =>
                f' = mkFrame w1 (transactionHashes fk)
                             (failedTransactions fk ++ [address recipient])
            end.
Proof.
  intros Hk N.
  assert (Hlt : k < N) by (apply lookup_lt_is_Some; eauto).
  destruct (forLoop_run env data k 0 f ltac:(lia)) as (os & evs0 & inst & Hloop & _).
  match type of Hloop with _ = (_, ?fk') => set (fk := fk') in * end.
  assert (Hnext : forLoop env data (S k) 0 f = loopBody env data k fk).
  { replace (S k) with (k + 1) by lia. rewrite forLoop_split. unfold bind at 1.
    rewrite Hloop. cbn [forLoop Nat.add]. unfold bind, ret.
    now destruct (loopBody env data k fk) as [[[]|e] f1]. }
  assert (Hbody : exists f', loopBody env data k fk = (Ok tt, f')).
  { destruct (loopBody_run env data k recipient fk Hk) as (? & ? & ? & H & _). eauto. }
  destruct Hbody as (f' & Hbody).
  exists fk, f'. split; [exact Hloop|]. split; [now rewrite Hnext|]. split.
  { replace N with (S k + (N - S k)) at 1 by lia.
    rewrite forLoop_split. unfold bind. rewrite Hnext, Hbody.
    now replace (0 + S k) with (S k) by lia. }
  rewrite (loopBody_submit _ _ _ _ _ Hk) in Hbody.
  destruct (submit env data recipient (world fk)) as [r w1] eqn:Hrun.
  destruct (submit_asks _ _ _ _ _ _ Hrun) as (evs & Hw1 & Hquiet & _).
  destruct (submitter_events_quiet evs Hquiet) as (_ & _ & Hnd & _).
  exists r, w1, evs. split; [reflexivity|]. split; [now rewrite Hw1|].
  split; [exact Hnd|].
  destruct r as [h|e]; injection Hbody as <-; [|reflexivity].
  unfold pauseAfter. fold N.
  destruct (Nat.ltb_spec k (N - 1)), (Nat.ltb_spec (S k) N); try reflexivity; lia.
Qed.

Lemma pause_after_success_witness :
  exists fk f',
    forLoop mixedEnv (nativeData threeRecipients) 1 0 (mkFrame emptyWorld [] [])
    = (Ok tt, fk)
    /\ forLoop mixedEnv (nativeData threeRecipients) 2 0 (mkFrame emptyWorld [] [])
       = (Ok tt, f')
    /\ forLoop mixedEnv (nativeData threeRecipients) 3 0 (mkFrame emptyWorld [] [])
       = forLoop mixedEnv (nativeData threeRecipients) (3 - 2) 2 f'
    /\ exists r w1 evs,
         submit mixedEnv (nativeData threeRecipients) (mkRecipient (addr40 "2") "2")
           (world fk) = (r, w1)
         /\ trace w1 = trace (world fk) ++ evs
         /\ existsb isDelay evs = false
         /\ match r with
            | Ok h =>
                f' = mkFrame (asked (if Nat.ltb 2 3 then [Delay 2000] else []) w1)
                             (transactionHashes fk ++ [h]) (failedTransactions fk)
            | Throw _ =>
                f' = mkFrame w1 (transactionHashes fk)
                             (failedTransactions fk ++ [addr40 "2"])
            end.
Proof.
  apply (pause_after_success mixedEnv (nativeData threeRecipients) 1
           (mkRecipient (addr40 "2") "2") (mkFrame emptyWorld [] [])).
  reflexivity.
Defined.

(** C5, as stated, fails: when the wallet declines the first of two
    recipients, the second submission follows the first without any pause;
    after a successful first submission the pause is there. *)
Lemma no_pause_after_failure :
  twoRunTrace firstDeclinedEnv
  = [GetAccounts Injected; EstimateGas Injected (nativeTx "1" (10 ^ 18));
     SendTransaction Injected (nativeTx "1" (10 ^ 18));
     GetAccounts Injected; EstimateGas Injected (nativeTx "2" (2 * 10 ^ 18));
     SendTransaction Injected (nativeTx "2" (2 * 10 ^ 18))]
  /\ spaced false (twoRunTrace firstDeclinedEnv) = false
  /\ spaced false (twoRunTrace lowBalanceEnv) = true.
Proof. vm_compute. auto. Qed.

(** C4 (amended): an exception leaves the [try] block only after the loop
    is over.  The [catch] clause then sends one update with status failed,
    the hashes accumulated so far and the addresses of all recipients as
    failed addresses (not the accumulated ones); when that update is
    accepted the record holds these values and the exception caught is
    thrown again, and when the update itself fails its error is thrown
    instead and the record is left as it was. *)
Theorem catch_marks_all_failed env data w record w1 e f2 :
  apiPost env data w = (Ok record, w1) ->
  tryBlock env data record (mkFrame w1 [] []) = (Throw e, f2) ->
  (exists os : Outcomes,
      map fst os = Data.recipients data
      /\ transactionHashes f2 = hashesOf os /\ failedTransactions f2 = failedOf os)
  /\ exists e' w3,
      mutationBody env data (mkFrame w [] [])
      = (Throw e', mkFrame w3 (transactionHashes f2) (failedTransactions f2))
      /\ trace w3
         = trace (world f2)
           ++ [ApiPut (Schema.id record)
                 (Update.mk Schema.failed (transactionHashes f2)
                    (map address (Data.recipients data)) None)]
      /\ match apiReply env (trace w3) with
         | Some e2 => e' = e2 /\ store w3 = store (world f2)
         | None =>
             e' = e
             /\ exists r,
                  store (world f2) !! Schema.id record = Some r
                  /\ store w3
                     = <[Schema.id record :=
                           merge (Update.mk Schema.failed (transactionHashes f2)
                                    (map address (Data.recipients data)) None) r]>
                         (store (world f2))
         end.
Proof.
  intros Hpost Htry.
  assert (Hbody : mutationBody env data (mkFrame w [] [])
                  = catchBlock env data record e f2).
  { unfold mutationBody. unfold bind, liftW.
    cbn [world transactionHashes failedTransactions].
    rewrite Hpost. unfold tryCatch. now rewrite Htry. }
  rewrite apiPost_run in Hpost. cbn zeta in Hpost.
  destruct (apiReply env (trace w ++ [ApiPost data])) eqn:Hp; [discriminate|].
  injection Hpost as <- <-.
  set (record := created env data _) in *.
  match type of Htry with
  | tryBlock _ _ _ (mkFrame ?w1' _ _) = _ =>
      destruct (tryBlock_run env data record w1')
        as (os & evs & inst & Hmap & _ & _ & _ & _ & _ & _ & _ & Hrun)
  end.
  rewrite Hrun in Htry. cbn zeta in Htry. rewrite apiPut_run in Htry.
  cbn zeta in Htry. cbn [store trace web3Instance] in Htry.
  rewrite lookup_insert_eq in Htry.
  match type of Htry with
  | context [apiReply env ?t] => destruct (apiReply env t) as [e1|] eqn:Hput
  end; [|discriminate].
  injection Htry as <- <-. unfold asked.
  cbn [world transactionHashes failedTransactions store trace web3Instance].
  split; [exists os; auto|].
  rewrite Hbody, catchBlock_run, apiPut_run. cbn zeta. unfold catchUpdate, asked.
  cbn [store trace web3Instance].
  change (Schema.id record) with (randomUUID env (trace w ++ [ApiPost data])).
  rewrite lookup_insert_eq.
  match goal with
  | |- context [apiReply env ?t] => destruct (apiReply env t) as [e2|] eqn:Hcatch
  end.
  - eexists _, _. split; [reflexivity|]. cbn [trace store]. split; [reflexivity|].
    rewrite Hcatch. auto.
  - eexists _, _. split; [reflexivity|]. cbn [trace store]. split; [reflexivity|].
    rewrite Hcatch. split; [reflexivity|]. eexists. split; reflexivity.
Qed.

Lemma catch_marks_all_failed_witness :
  exists os : Outcomes,
    map fst os = oneRecipient
    /\ transactionHashes
         (snd (tryBlock failingStoreEnv (nativeData oneRecipient)
                 (pendingRecord oneRecipient 1)
                 (mkFrame (snd (apiPost failingStoreEnv (nativeData oneRecipient)
                                  emptyWorld)) [] [])))
       = hashesOf os
    /\ failedTransactions
         (snd (tryBlock failingStoreEnv (nativeData oneRecipient)
                 (pendingRecord oneRecipient 1)
                 (mkFrame (snd (apiPost failingStoreEnv (nativeData oneRecipient)
                                  emptyWorld)) [] [])))
       = failedOf os.
Proof.
  assert (Hpost : apiPost failingStoreEnv (nativeData oneRecipient) emptyWorld
                  = (Ok (pendingRecord oneRecipient 1),
                     snd (apiPost failingStoreEnv (nativeData oneRecipient) emptyWorld)))
    by (apply pair_of_fst; vm_compute; reflexivity).
  assert (Htry : tryBlock failingStoreEnv (nativeData oneRecipient)
                   (pendingRecord oneRecipient 1)
                   (mkFrame (snd (apiPost failingStoreEnv (nativeData oneRecipient)
                                    emptyWorld)) [] [])
                 = (Throw storageUnavailable,
                    snd (tryBlock failingStoreEnv (nativeData oneRecipient)
                           (pendingRecord oneRecipient 1)
                           (mkFrame (snd (apiPost failingStoreEnv
                                            (nativeData oneRecipient)
                                            emptyWorld)) [] []))))
    by (apply pair_of_fst; vm_compute; reflexivity).
  exact (proj1 (catch_marks_all_failed _ _ _ _ _ _ _ Hpost Htry)).
Defined.

(** C4, as stated, fails: one recipient is served, the final update fails,
    and the update of the [catch] clause stores that recipient as failed
    although no failure was accumulated. *)
Lemma catch_overwrites_failed_addresses :
  fst failingStoreRun = Throw storageUnavailable
  /\ transactionHashes (snd failingStoreRun) = [hashFor "1"]
  /\ failedTransactions (snd failingStoreRun) = []
  /\ Schema.failedAddresses <$> (store (world (snd failingStoreRun)) !! demoId)
     = Some (Some [addr40 "1"])
  /\ Schema.transactionHashes <$> (store (world (snd failingStoreRun)) !! demoId)
     = Some (Some [hashFor "1"])
  /\ Schema.status <$> (store (world (snd failingStoreRun)) !! demoId)
     = Some Schema.failed
  /\ last (trace (world (snd failingStoreRun)))
     = Some (ApiPut demoId (Update.mk Schema.failed [hashFor "1"] [addr40 "1"] None)).
Proof. vm_compute. auto 10. Qed.

(** ** The start of a batch *)

Lemma token_selected ui :
  (tokenType ui = erc20 -> tokenAddress ui <> ""%string) ->
  bool_decide (tokenType ui = erc20) && Js.falsy (tokenAddress ui) = false.
Proof.
  intros Htok. destruct (tokenType ui) eqn:Ht; [reflexivity|]. simpl.
  destruct (Js.falsy (tokenAddress ui)) eqn:Hf; [|reflexivity].
  apply falsy_spec in Hf. destruct (Htok eq_refl Hf).
Qed.

Lemma handler_data env ui account0 :
  Data.mk (recipients ui) (totalAmountString env (recipients ui)) (tokenType ui)
    (if bool_decide (tokenType ui = erc20) then Some (tokenAddress ui) else None)
    (tokenSymbol ui) account0
  = dataOf env ui account0.
Proof. unfold dataOf. now destruct (tokenType ui). Qed.

(** [handleSendToMultiple] once the list, the token and the wallet have
    passed their tests. *)
Lemma handleSendToMultiple_run env ui w :
  recipients ui <> [] ->
  (tokenType ui = erc20 -> tokenAddress ui <> ""%string) ->
  ethereum env = true ->
  handleSendToMultiple env ui w
  = let w1 := asked [EthRequest "eth_accounts"] w in
    match requestAccountsReply env (trace w ++ [EthRequest "eth_accounts"]) with
    | inl _ => (toast walletError ui, w1)
    | inr [] => (toast walletNotConnected ui, w1)
    | inr (account0 :: _) =>
        if negb (confirmAnswer env) then (ui, w1)
        else mutate env (dataOf env ui account0) ui w1
    end.
Proof.
  intros Hne Htok He. unfold handleSendToMultiple.
  destruct (recipients ui) as [|r0 rs] eqn:Hrs; [congruence|]. cbn [List.length Nat.eqb].
  rewrite (token_selected ui Htok), He. cbn [negb]. rewrite ask_run. cbn zeta.
  destruct (requestAccountsReply env _) as [e|[|account0 rest]]; try reflexivity.
  destruct (negb (confirmAnswer env)); [reflexivity|].
  rewrite <- Hrs. now rewrite handler_data.
Qed.

(** C3 (amended): with an empty list, with the ERC-20 type and no token
    address, without a wallet, and when the wallet answers no account (or
    rejects the request), [handleSendToMultiple] shows the error of that
    test and nothing else happens, whatever the user would answer to the
    dialog: no run, the world as it was but for the account request.  The
    chain is looked at by [mutationFn] only, after the dialog: on another
    chain, a user who confirms is shown the error thrown by [mutationFn],
    and a user who declines is shown nothing.  [mutationFn] itself throws on
    a missing wallet, a missing account or another chain, having asked the
    wallet only: no record is created and nothing is submitted. *)
Theorem preconditions_guard env ui w :
  let accountRequest := [EthRequest "eth_accounts"] in
  let run := handleSendToMultiple env ui w in
  (recipients ui = [] -> run = (toast noRecipients ui, w))
  /\ (recipients ui <> [] -> tokenType ui = erc20 -> tokenAddress ui = ""%string ->
      run = (toast tokenNotSelected ui, w))
  /\ (recipients ui <> [] -> (tokenType ui = erc20 -> tokenAddress ui <> ""%string) ->
      (ethereum env = false -> run = (toast walletNotFound ui, w))
      /\ (ethereum env = true ->
          (requestAccountsReply env (trace w ++ accountRequest) = inr [] ->
           run = (toast walletNotConnected ui, asked accountRequest w))
          /\ (forall e,
                requestAccountsReply env (trace w ++ accountRequest) = inl e ->
                run = (toast walletError ui, asked accountRequest w))
          /\ (forall account0 rest account1 rest1 chainId,
                requestAccountsReply env (trace w ++ accountRequest)
                = inr (account0 :: rest) ->
                requestAccountsReply env (trace w ++ accountRequest ++ accountRequest)
                = inr (account1 :: rest1) ->
                requestChainIdReply env (trace w ++ accountRequest ++ walletChecks)
                = inr chainId ->
                chainId <> "0x279f"%string ->
                (confirmAnswer env = true ->
                 run = (toast switchChain ui, asked (accountRequest ++ walletChecks) w))
                /\ (confirmAnswer env = false -> run = (ui, asked accountRequest w)))))
  /\ (forall data,
        (ethereum env = false ->
         mutationFn env data w = (Throw (newError "MetaMask not available"), w))
        /\ (ethereum env = true ->
            (requestAccountsReply env (trace w ++ accountRequest) = inr [] ->
             mutationFn env data w
             = (Throw (newError "Wallet not connected"), asked accountRequest w))
            /\ (forall account0 rest chainId,
                  requestAccountsReply env (trace w ++ accountRequest)
                  = inr (account0 :: rest) ->
                  requestChainIdReply env (trace w ++ walletChecks) = inr chainId ->
                  chainId <> "0x279f"%string ->
                  mutationFn env data w
                  = (Throw (newError "Please switch to Monad Testnet"),
                     asked walletChecks w)))).
Proof.
  cbn zeta. split; [|split; [|split]].
  - intros Hnil. unfold handleSendToMultiple. now rewrite Hnil.
  - intros Hne Htype Htok. unfold handleSendToMultiple.
    destruct (recipients ui); [congruence|]. cbn [List.length Nat.eqb].
    now rewrite Htype, Htok.
  - intros Hne Htok. split.
    + intros He. unfold handleSendToMultiple.
      destruct (recipients ui); [congruence|]. cbn [List.length Nat.eqb].
      now rewrite (token_selected ui Htok), He.
    + intros He. rewrite (handleSendToMultiple_run env ui w Hne Htok He). cbn zeta.
      split; [now intros ->|]. split; [now intros e ->|].
      intros account0 rest account1 rest1 chainId -> Hacc Hchain Hneq.
      split; intros ->; cbn [negb]; [|reflexivity].
      unfold mutate. rewrite mutationFn_run, He. cbn [negb].
      unfold asked at 1. cbn [trace]. rewrite <- app_assoc, Hacc.
      cbn [List.length Nat.eqb].
      unfold asked at 1. cbn [trace]. rewrite <- app_assoc, Hchain.
      apply String.eqb_neq in Hneq. rewrite Hneq. cbn [negb].
      now rewrite asked_asked.
  - intros data. rewrite mutationFn_run. split.
    + now intros ->.
    + intros ->. cbn [negb]. split; [now intros ->|].
      intros account0 rest chainId -> Hchain Hneq. cbn [List.length Nat.eqb].
      rewrite Hchain. apply String.eqb_neq in Hneq. now rewrite Hneq.
Qed.

Lemma preconditions_guard_witness :
  handleSendToMultiple wrongChainEnv readyBook emptyWorld
  = (toast switchChain readyBook,
     asked ([EthRequest "eth_accounts"] ++ walletChecks) emptyWorld)
  /\ mutationFn wrongChainEnv (nativeData threeRecipients) emptyWorld
     = (Throw (newError "Please switch to Monad Testnet"), asked walletChecks emptyWorld).
Proof.
  split.
  - apply (proj2 (proj2 (proj2 (proj1 (proj2 (proj2 (preconditions_guard wrongChainEnv readyBook emptyWorld)))
                                  ltac:(discriminate) ltac:(discriminate))
                           eq_refl))
             sender [] sender [] "0x1"%string eq_refl eq_refl eq_refl
             ltac:(discriminate));
      reflexivity.
  - apply (proj2 (proj2 (proj2 (proj2 (proj2 (preconditions_guard wrongChainEnv readyBook
                                                emptyWorld)))
                           (nativeData threeRecipients)) eq_refl)
             sender [] "0x1"%string eq_refl eq_refl ltac:(discriminate)).
Defined.

(** C3, as stated, fails: on another chain, with a user who declines the
    dialog, the handler returns without any error shown; the chain has not
    been looked at. *)
Lemma wrong_chain_declined_no_error :
  requestChainIdReply wrongChainDeclineEnv [] = inr "0x1"%string
  /\ handleSendToMultiple wrongChainDeclineEnv readyBook emptyWorld
     = (readyBook, mkWorld ∅ None [EthRequest "eth_accounts"])
  /\ toasts readyBook = [].
Proof. vm_compute. auto. Qed.
(** * Further properties *)

(** ** The recipient book *)

Lemma filter_index_above (rs : list Recipient) s index :
  index < s ->
  map snd (List.filter (fun p : nat * Recipient => negb (Nat.eqb (fst p) index))
             (combine (seq s (List.length rs)) rs)) = rs.
Proof.
  revert s. induction rs as [|r rs IH]; intros s Hlt; [reflexivity|].
  simpl. destruct (Nat.eqb_spec s index); [lia|]. simpl.
  f_equal. apply IH. lia.
Qed.

Lemma filter_index_from (rs : list Recipient) s i :
  map snd (List.filter (fun p : nat * Recipient => negb (Nat.eqb (fst p) (s + i)))
             (combine (seq s (List.length rs)) rs))
  = take i rs ++ drop (S i) rs.
Proof.
  revert s i. induction rs as [|r rs IH]; intros s i; [now destruct i|].
  simpl. destruct i as [|i].
  - rewrite Nat.add_0_r, Nat.eqb_refl. simpl. rewrite drop_0.
    apply filter_index_above. lia.
  - destruct (Nat.eqb_spec s (s + S i)); [lia|]. simpl. f_equal.
    replace (s + S i) with (S s + i) by lia. apply IH.
Qed.

Lemma removeRecipient_recipients index ui :
  recipients (removeRecipient index ui)
  = take index (recipients ui) ++ drop (S index) (recipients ui).
Proof. apply (filter_index_from (recipients ui) 0 index). Qed.

(** X1: [removeRecipient] takes out the entry at the given position and
    keeps the others in their order; a position outside the list changes
    nothing; the toasts are never touched. *)
Theorem removeRecipient_at index ui :
  recipients (removeRecipient index ui)
  = take index (recipients ui) ++ drop (S index) (recipients ui)
  /\ toasts (removeRecipient index ui) = toasts ui
  /\ (List.length (recipients ui) <= index ->
      recipients (removeRecipient index ui) = recipients ui)
  /\ (index < List.length (recipients ui) ->
      S (List.length (recipients (removeRecipient index ui)))
      = List.length (recipients ui)).
Proof.
  assert (H : recipients (removeRecipient index ui)
              = take index (recipients ui) ++ drop (S index) (recipients ui))
    by apply removeRecipient_recipients.
  split; [exact H|]. split; [reflexivity|]. rewrite H. split; intros Hi.
  - rewrite take_ge, drop_ge by lia. apply app_nil_r.
  - rewrite length_app, length_take, length_drop. lia.
Qed.

Lemma removeRecipient_at_witness :
  recipients (removeRecipient 5 (entry "" "" threeRecipients)) = threeRecipients
  /\ S (List.length (recipients (removeRecipient 1 (entry "" "" threeRecipients)))) = 3.
Proof.
  split.
  - apply (removeRecipient_at 5 (entry "" "" threeRecipients)). simpl. lia.
  - apply (removeRecipient_at 1 (entry "" "" threeRecipients)). simpl. lia.
Defined.

Lemma lowerAddresses_app rs1 rs2 :
  lowerAddresses (rs1 ++ rs2) = lowerAddresses rs1 ++ lowerAddresses rs2.
Proof. apply map_app. Qed.

Lemma lowerAddresses_sublist rs1 rs2 :
  rs1 `sublist_of` rs2 -> lowerAddresses rs1 `sublist_of` lowerAddresses rs2.
Proof.
  induction 1; simpl; [constructor | now constructor | now constructor].
Qed.

(** X2: when no two recipients of the list have the same address up to
    case, this is still so after [addRecipient], after [removeRecipient] at
    any position and after [clearAll]. *)
Theorem distinct_addresses_kept ui :
  NoDup (lowerAddresses (recipients ui)) ->
  NoDup (lowerAddresses (recipients (addRecipient ui)))
  /\ (forall index, NoDup (lowerAddresses (recipients (removeRecipient index ui))))
  /\ NoDup (lowerAddresses (recipients (clearAll ui))).
Proof.
  intros Hnd. split; [|split].
  - destruct (addRecipient_cases ui) as [(_ & t & -> & _)|(Hok & -> & _)]; [exact Hnd|].
    rewrite lowerAddresses_app. apply NoDup_app. split; [exact Hnd|].
    split; [|apply NoDup_singleton].
    intros x Hx Hnew. apply list_elem_of_In in Hx. simpl in Hnew.
    apply list_elem_of_In in Hnew. destruct Hnew as [<-|[]].
    unfold lowerAddresses in Hx. apply in_map_iff in Hx as (r & Heq & Hin).
    apply Hok. unfold refused. do 6 right. eauto.
  - intros index. rewrite removeRecipient_recipients.
    refine (sublist_NoDup _ (lowerAddresses (recipients ui)) Hnd _).
    apply lowerAddresses_sublist.
    rewrite <- (take_drop index (recipients ui)) at 3.
    apply sublist_app; [reflexivity|].
    rewrite <- (Nat.add_1_r index), <- drop_drop. apply sublist_drop.
  - constructor.
Qed.

Lemma distinct_addresses_kept_witness :
  NoDup (lowerAddresses (recipients (addRecipient duplicateEntry))).
Proof.
  apply (distinct_addresses_kept duplicateEntry).
  apply NoDup_singleton.
Defined.

Lemma csvLines_omap lines acc : csvLines lines acc = acc ++ omap csvLine lines.
Proof.
  revert acc. induction lines as [|line lines IH]; intros acc; simpl.
  - now rewrite app_nil_r.
  - rewrite IH. destruct (csvLine line); [now rewrite <- app_assoc | reflexivity].
Qed.

Lemma omap_length_le {A B} (f : A -> option B) (l : list A) :
  List.length (omap f l) <= List.length l.
Proof. induction l as [|a l IH]; csimpl; [lia|]. destruct (f a); simpl; lia. Qed.

Lemma handleCSVUpload_recipients text ui :
  recipients (handleCSVUpload (Some text) ui)
  = recipients ui ++ omap csvLine (keptLines text).
Proof.
  unfold handleCSVUpload. fold (keptLines text).
  rewrite csvLines_omap. cbn [app].
  destruct (omap csvLine (keptLines text)) as [|r added]; simpl;
    try reflexivity. now rewrite app_nil_r.
Qed.

(** X3: the import appends, after the recipients already listed and in the
    order of the lines, one recipient for each non-blank line that passes
    its tests; the toast counts the recipients added, at most one per line,
    and when no line passes the list is unchanged and the toast is the
    error one.  Without a file nothing happens. *)
Theorem handleCSVUpload_appends text ui :
  recipients (handleCSVUpload (Some text) ui)
  = recipients ui ++ omap csvLine (keptLines text)
  /\ toasts (handleCSVUpload (Some text) ui)
     = toasts ui
       ++ [match omap csvLine (keptLines text) with
           | [] => invalidCSV
           | added => csvUploaded (List.length added)
           end]
  /\ List.length (omap csvLine (keptLines text)) <= List.length (keptLines text)
  /\ handleCSVUpload None ui = ui.
Proof.
  unfold handleCSVUpload. fold (keptLines text).
  rewrite csvLines_omap. cbn [app].
  split; [|split; [|split; [apply omap_length_le | reflexivity]]];
    destruct (omap csvLine (keptLines text)) as [|r added]; simpl;
    try reflexivity. now rewrite app_nil_r.
Qed.

Lemma csvLine_format line r : csvLine line = Some r -> basicFormat r.
Proof.
  unfold csvLine, basicFormat.
  destruct (map Js.trim (Js.split "," line)) as [|a [|m rest]]; try discriminate.
  destruct (negb (Js.falsy a) && negb (Js.falsy m)); [|discriminate].
  destruct (Js.startsWith "0x" a) eqn:Hp; [|discriminate].
  destruct (Nat.eqb (String.length a) 42) eqn:Hl; [|discriminate].
  destruct (Js.isNaN (Js.parseFloat m)) eqn:Hn; [discriminate|].
  intros [= <-]. simpl. apply Nat.eqb_eq in Hl. auto.
Qed.

Lemma omap_csvLine_format lines : Forall basicFormat (omap csvLine lines).
Proof.
  induction lines as [|line lines IH]; simpl; [constructor|].
  destruct (csvLine line) eqn:E; [|exact IH].
  constructor; [eapply csvLine_format, E | exact IH].
Qed.

(** X4: when every listed recipient has an address of 42 characters that
    starts with [0x] and an amount that parses to a number, this is still so
    after [addRecipient], after an import, after [removeRecipient] and after
    [clearAll]. *)
Theorem basicFormat_kept ui :
  Forall basicFormat (recipients ui) ->
  Forall basicFormat (recipients (addRecipient ui))
  /\ (forall file, Forall basicFormat (recipients (handleCSVUpload file ui)))
  /\ (forall index, Forall basicFormat (recipients (removeRecipient index ui)))
  /\ Forall basicFormat (recipients (clearAll ui)).
Proof.
  intros Hall. repeat split.
  - destruct (addRecipient_cases ui) as [(_ & t & -> & _)|(Hok & -> & _)]; [exact Hall|].
    apply Forall_app. split; [exact Hall|]. constructor; [|constructor].
    unfold basicFormat, refused in *. simpl.
    destruct (Js.startsWith "0x" (newAddress ui)); [|tauto].
    destruct (Js.isNaN (Js.parseFloat (newAmount ui))); [tauto|].
    destruct (Nat.eq_dec (String.length (newAddress ui)) 42); tauto.
  - intros [text|]; [|exact Hall].
    rewrite handleCSVUpload_recipients.
    apply Forall_app. split; [exact Hall | apply omap_csvLine_format].
  - intros index. rewrite removeRecipient_recipients.
    apply Forall_app. split; [now apply Forall_take | now apply Forall_drop].
  - constructor.
Qed.

Lemma basicFormat_kept_witness :
  Forall basicFormat (recipients (handleCSVUpload (Some threeLineText) (entry "" "" bookA))).
Proof.
  apply (basicFormat_kept (entry "" "" bookA)).
  repeat constructor.
Defined.


(** ** The transaction submitter *)

Lemma knownMessage_fixed fixed prefixes m :
  In m fixed -> knownMessage fixed prefixes m = true.
Proof.
  intros Hin. unfold knownMessage. apply orb_true_iff. left.
  apply existsb_exists. exists m. split; [exact Hin | apply String.eqb_refl].
Qed.

Lemma knownMessage_prefix fixed prefixes p rest :
  In p prefixes -> knownMessage fixed prefixes (p ++ rest)%string = true.
Proof.
  intros Hin. unfold knownMessage. apply orb_true_iff. right.
  apply existsb_exists. exists p. split; [exact Hin | apply prefix_app].
Qed.

Lemma knownMessage_starts fixed prefixes p rest m :
  m = (p ++ rest)%string -> In p prefixes -> knownMessage fixed prefixes m = true.
Proof. intros ->. apply knownMessage_prefix. Qed.

Ltac known :=
  cbn [message newError];
  first [ apply knownMessage_fixed; simpl; tauto
        | eapply (knownMessage_starts _ _ "Invalid recipient address: ");
          [reflexivity | simpl; tauto]
        | eapply (knownMessage_starts _ _ "Invalid token address: ");
          [reflexivity | simpl; tauto]
        | eapply (knownMessage_starts _ _ "Invalid amount: ");
          [reflexivity | simpl; tauto]
        | eapply (knownMessage_starts _ _ "Transaction failed: ");
          [reflexivity | simpl; tauto]
        | eapply (knownMessage_starts _ _ "Token transfer failed: ");
          [reflexivity | simpl; tauto] ].

Lemma nativeRethrown_known e :
  code (nativeRethrown e) = None /\ nativeMessage (message (nativeRethrown e)) = true.
Proof.
  unfold nativeRethrown, nativeMessage.
  destruct (hasCode e 4001); [split; [reflexivity | known]|].
  destruct (hasCode e (-32603)); [split; [reflexivity | known]|].
  destruct (Js.includes _ _); split; try reflexivity; known.
Qed.

Lemma tokenRethrown_known e :
  code (tokenRethrown e) = None /\ tokenMessage (message (tokenRethrown e)) = true.
Proof.
  unfold tokenRethrown, tokenMessage.
  destruct (hasCode e 4001); [split; [reflexivity | known]|].
  destruct (Js.includes "insufficient" _); [split; [reflexivity | known]|].
  destruct (Js.includes _ _); split; try reflexivity; known.
Qed.

Lemma invalidNativeInput_known env to value :
  code (invalidNativeInput env to value) = None
  /\ nativeMessage (message (invalidNativeInput env to value)) = true.
Proof.
  unfold invalidNativeInput, nativeMessage.
  destruct (negb (isAddress env to)); split; try reflexivity; known.
Qed.

Lemma invalidTokenInput_known env token to amount :
  code (invalidTokenInput env token to amount) = None
  /\ tokenMessage (message (invalidTokenInput env token to amount)) = true.
Proof.
  unfold invalidTokenInput, tokenMessage.
  destruct (negb (isAddress env token)); [split; [reflexivity | known]|].
  destruct (negb (isAddress env to)); split; try reflexivity; known.
Qed.

(** X5: when [sendTransaction] returns a hash, a wallet was present, the
    account request made through the instance answered an account, the
    address and the amount passed their tests, gas was estimated and then
    one request to sign was made, both on the same parameters (sender the
    first account, value the amount in base units), nothing else was asked,
    and the hash is the answer to that request. *)
Theorem sendTransaction_success env to value data w h w' :
  sendTransaction env to value data w = (Ok h, w') ->
  let web3 := instanceOf env w in
  exists account rest wei gas,
    let tx := mkTxParams account to wei (txData data) in
    ethereum env = true
    /\ getAccountsReply env (trace w ++ [GetAccounts web3]) = inr (account :: rest)
    /\ isAddress env to = true /\ badAmount value = false
    /\ toWei env value = inr wei
    /\ w' = mkWorld (store w) (Some web3)
              (trace w ++ [GetAccounts web3; EstimateGas web3 tx;
                           SendTransaction web3 tx])
    /\ estimateGasReply env (trace w ++ [GetAccounts web3; EstimateGas web3 tx])
       = inr gas
    /\ sendTransactionReply env (trace w') = inr h.
Proof.
  rewrite sendTransaction_run. cbn zeta.
  destruct (ethereum env) eqn:He; cbn [negb]; [|discriminate].
  destruct (getAccountsReply env _) as [e|[|account rest]] eqn:Hacc; try discriminate.
  destruct (isAddress env to) eqn:Hto; cbn [negb orb]; [|discriminate].
  destruct (badAmount value) eqn:Hv; [discriminate|].
  destruct (toWei env value) as [e|wei] eqn:Hwei; [discriminate|].
  destruct (estimateGasReply env _) as [e|gas] eqn:Hgas; [discriminate|].
  destruct (sendTransactionReply env _) as [e|h'] eqn:Hsend; [discriminate|].
  intros [= <- <-]. exists account, rest, wei, gas. cbn [trace]. auto 10.
Qed.

Lemma sendTransaction_success_witness :
  exists account rest wei gas,
    let tx := mkTxParams account (addr40 "1") wei (txData None) in
    ethereum lowBalanceEnv = true
    /\ getAccountsReply lowBalanceEnv (trace emptyWorld ++ [GetAccounts Injected])
       = inr (account :: rest)
    /\ isAddress lowBalanceEnv (addr40 "1") = true /\ badAmount "1" = false
    /\ toWei lowBalanceEnv "1" = inr wei
    /\ snd (sendTransaction lowBalanceEnv (addr40 "1") "1" None emptyWorld)
       = mkWorld (store emptyWorld) (Some Injected)
           (trace emptyWorld ++ [GetAccounts Injected; EstimateGas Injected tx;
                                 SendTransaction Injected tx])
    /\ estimateGasReply lowBalanceEnv
         (trace emptyWorld ++ [GetAccounts Injected; EstimateGas Injected tx])
       = inr gas
    /\ sendTransactionReply lowBalanceEnv
         (trace (snd (sendTransaction lowBalanceEnv (addr40 "1") "1" None emptyWorld)))
       = inr (hashFor "1").
Proof.
  apply (sendTransaction_success lowBalanceEnv (addr40 "1") "1" None emptyWorld
           (hashFor "1")).
  apply pair_of_fst. vm_compute. reflexivity.
Defined.

(** X6: a call of [sendTransaction] or of [sendERC20Token] leaves the record
    store alone and makes at most one request to sign and broadcast: exactly
    one when it returns a hash, and never a second one after a failure. *)
Theorem one_submission_per_call env w :
  (forall to value data r w',
      sendTransaction env to value data w = (r, w') ->
      exists evs,
        w' = mkWorld (store w) (Some (instanceOf env w)) (trace w ++ evs)
        /\ submissions evs <= 1
        /\ (forall h, r = Ok h -> submissions evs = 1))
  /\ (forall token to amount decimals r w',
      sendERC20Token env token to amount decimals w = (r, w') ->
      exists evs,
        w' = mkWorld (store w) (Some (instanceOf env w)) (trace w ++ evs)
        /\ submissions evs <= 1
        /\ (forall h, r = Ok h -> submissions evs = 1)).
Proof.
  split.
  - intros to value data r w' Hrun.
    destruct (sendTransaction_asks _ _ _ _ _ _ _ Hrun) as (evs & -> & _ & Hle & Hone).
    exists evs. auto.
  - intros token to amount decimals r w' Hrun.
    destruct (sendERC20Token_asks _ _ _ _ _ _ _ _ Hrun) as (evs & -> & _ & Hle & Hone).
    exists evs. auto.
Qed.

Lemma one_submission_per_call_witness :
  exists evs,
    snd (sendTransaction mixedEnv (addr40 "1") "1" None emptyWorld)
    = mkWorld (store emptyWorld) (Some (instanceOf mixedEnv emptyWorld))
        (trace emptyWorld ++ evs)
    /\ submissions evs <= 1
    /\ (forall h, Ok (hashFor "1") = Ok h -> submissions evs = 1).
Proof.
  apply (proj1 (one_submission_per_call mixedEnv emptyWorld)
           (addr40 "1") "1" None (Ok (hashFor "1"))).
  apply pair_of_fst. vm_compute. reflexivity.
Defined.

(** X7: an error thrown by [sendTransaction] or by [sendERC20Token] is
    either the error of the account request, which is awaited before the
    [try] block and leaves the function as it came, code included, or a new
    error without a code whose message is one of the fixed messages of the
    function or one of its prefixes followed by the input or by the message
    of what was caught. *)
Theorem submitter_errors env w :
  (forall to value data e w',
      sendTransaction env to value data w = (Throw e, w') ->
      (ethereum env = true
       /\ getAccountsReply env (trace w ++ [GetAccounts (instanceOf env w)]) = inl e)
      \/ (code e = None /\ nativeMessage (message e) = true))
  /\ (forall token to amount decimals e w',
      sendERC20Token env token to amount decimals w = (Throw e, w') ->
      (ethereum env = true
       /\ getAccountsReply env (trace w ++ [GetAccounts (instanceOf env w)]) = inl e)
      \/ (code e = None /\ tokenMessage (message e) = true)).
Proof.
  split.
  - intros to value data e0 w'. rewrite sendTransaction_run. cbn zeta.
    destruct (ethereum env); cbn [negb].
    2:{ intros [= <- <-]. right. split; [reflexivity | unfold nativeMessage; known]. }
    destruct (getAccountsReply env _) as [e|[|account rest]].
    { intros [= <- <-]. left. auto. }
    { intros [= <- <-]. right. split; [reflexivity | unfold nativeMessage; known]. }
    destruct (negb (isAddress env to) || badAmount value).
    { intros [= <- <-]. right. apply invalidNativeInput_known. }
    destruct (toWei env value) as [e|wei].
    { intros [= <- <-]. right. apply nativeRethrown_known. }
    destruct (estimateGasReply env _) as [e|gas].
    { intros [= <- <-]. right. apply nativeRethrown_known. }
    destruct (sendTransactionReply env _) as [e|h]; [|discriminate].
    intros [= <- <-]. right. apply nativeRethrown_known.
  - intros token to amount decimals e0 w'. rewrite sendERC20Token_run. cbn zeta.
    destruct (ethereum env); cbn [negb].
    2:{ intros [= <- <-]. right. split; [reflexivity | unfold tokenMessage; known]. }
    destruct (getAccountsReply env _) as [e|[|account rest]].
    { intros [= <- <-]. left. auto. }
    { intros [= <- <-]. right. split; [reflexivity | unfold tokenMessage; known]. }
    destruct (negb (isAddress env token) || negb (isAddress env to) || badAmount amount).
    { intros [= <- <-]. right. apply invalidTokenInput_known. }
    destruct (newContract env tokenABI (Some token)) as [e|].
    { intros [= <- <-]. right. apply tokenRethrown_known. }
    destruct (toWei env amount) as [e|wei].
    { intros [= <- <-]. right. apply tokenRethrown_known. }
    destruct (balanceOfReply env _) as [e|balance].
    { intros [= <- <-]. right. apply tokenRethrown_known. }
    destruct (Z.ltb balance wei).
    { intros [= <- <-]. right. apply tokenRethrown_known. }
    destruct (transferReply env _) as [e|h]; [|discriminate].
    intros [= <- <-]. right. apply tokenRethrown_known.
Qed.

Lemma submitter_errors_witness :
  ((ethereum mixedEnv = true
    /\ getAccountsReply mixedEnv
         (trace emptyWorld ++ [GetAccounts (instanceOf mixedEnv emptyWorld)])
       = inl (newError "Transaction was rejected by user"))
   \/ (code (newError "Transaction was rejected by user") = None
       /\ nativeMessage (message (newError "Transaction was rejected by user")) = true))
  /\ ((ethereum busyWalletEnv = true
       /\ getAccountsReply busyWalletEnv
            (trace emptyWorld ++ [GetAccounts (instanceOf busyWalletEnv emptyWorld)])
          = inl alreadyPending)
      \/ (code alreadyPending = None
          /\ tokenMessage (message alreadyPending) = true)).
Proof.
  split.
  - apply (proj1 (submitter_errors mixedEnv emptyWorld) (addr40 "2") "2" None _
             (snd (sendTransaction mixedEnv (addr40 "2") "2" None emptyWorld))).
    apply pair_of_fst. vm_compute. reflexivity.
  - apply (proj2 (submitter_errors busyWalletEnv emptyWorld) tokenA (addr40 "1") "1" 18 _
             (snd (sendERC20Token busyWalletEnv tokenA (addr40 "1") "1" 18 emptyWorld))).
    apply pair_of_fst. vm_compute. reflexivity.
Defined.

(** X8: when [sendERC20Token] returns a hash, a wallet was present, the
    account request made through the instance answered an account, both
    addresses and the amount passed their tests, the contract object was
    built, the balance read from the token contract was at least the amount
    in base units, one transfer was then requested from the first account,
    nothing else was asked (no gas estimate), and the hash is the answer to
    that request. *)
Theorem sendERC20Token_success env token to amount decimals w h w' :
  sendERC20Token env token to amount decimals w = (Ok h, w') ->
  let web3 := instanceOf env w in
  exists account rest wei balance,
    ethereum env = true
    /\ getAccountsReply env (trace w ++ [GetAccounts web3]) = inr (account :: rest)
    /\ isAddress env token = true /\ isAddress env to = true
    /\ badAmount amount = false
    /\ newContract env tokenABI (Some token) = None
    /\ toWei env amount = inr wei
    /\ balanceOfReply env (trace w ++ [GetAccounts web3; BalanceOf web3 token account])
       = inr balance
    /\ (wei <= balance)%Z
    /\ w' = mkWorld (store w) (Some web3)
              (trace w ++ [GetAccounts web3; BalanceOf web3 token account;
                           Transfer web3 token account to wei])
    /\ transferReply env (trace w') = inr h.
Proof.
  rewrite sendERC20Token_run. cbn zeta.
  destruct (ethereum env) eqn:He; cbn [negb]; [|discriminate].
  destruct (getAccountsReply env _) as [e|[|account rest]] eqn:Hacc; try discriminate.
  destruct (isAddress env token) eqn:Htok; cbn [negb orb]; [|discriminate].
  destruct (isAddress env to) eqn:Hto; cbn [negb orb]; [|discriminate].
  destruct (badAmount amount) eqn:Hv; [discriminate|].
  destruct (newContract env tokenABI (Some token)) as [e|] eqn:Hnew; [discriminate|].
  destruct (toWei env amount) as [e|wei] eqn:Hwei; [discriminate|].
  destruct (balanceOfReply env _) as [e|balance] eqn:Hbal; [discriminate|].
  destruct (Z.ltb balance wei) eqn:Hlt; [discriminate|].
  destruct (transferReply env _) as [e|h'] eqn:Hsend; [discriminate|].
  intros [= <- <-]. exists account, rest, wei, balance. cbn [trace].
  apply Z.ltb_ge in Hlt. auto 15.
Qed.

Lemma sendERC20Token_success_witness :
  exists account rest wei balance,
    ethereum richEnv = true
    /\ getAccountsReply richEnv (trace emptyWorld ++ [GetAccounts Injected])
       = inr (account :: rest)
    /\ isAddress richEnv tokenA = true /\ isAddress richEnv (addr40 "1") = true
    /\ badAmount "1" = false
    /\ newContract richEnv tokenABI (Some tokenA) = None
    /\ toWei richEnv "1" = inr wei
    /\ balanceOfReply richEnv
         (trace emptyWorld ++ [GetAccounts Injected; BalanceOf Injected tokenA account])
       = inr balance
    /\ (wei <= balance)%Z
    /\ snd (sendERC20Token richEnv tokenA (addr40 "1") "1" 18 emptyWorld)
       = mkWorld (store emptyWorld) (Some Injected)
           (trace emptyWorld ++ [GetAccounts Injected; BalanceOf Injected tokenA account;
                                 Transfer Injected tokenA account (addr40 "1") wei])
    /\ transferReply richEnv
         (trace (snd (sendERC20Token richEnv tokenA (addr40 "1") "1" 18 emptyWorld)))
       = inr (hashFor "1").
Proof.
  apply (sendERC20Token_success richEnv tokenA (addr40 "1") "1" 18 emptyWorld
           (hashFor "1")).
  apply pair_of_fst. vm_compute. reflexivity.
Defined.

(** ** The trace of a batch run *)

Lemma puts_quiet puts :
  forallb isPut puts = true -> submissions puts = 0 /\ pauses puts = 0
  /\ forall ms, ~ In (Delay ms) puts.
Proof.
  induction puts as [|ev puts IH]; simpl; intros H; [auto|].
  apply andb_true_iff in H as [Hev Hrest]. destruct (IH Hrest) as (Hs & Hp & Hd).
  destruct ev; try discriminate Hev. repeat split; auto.
  intros ms [Heq|Hin]; [discriminate Heq | exact (Hd ms Hin)].
Qed.

Lemma ethRequests_quiet pre :
  forallb isEthRequest pre = true ->
  submissions pre = 0 /\ pauses pre = 0 /\ (forall ms, ~ In (Delay ms) pre)
  /\ forallb (fun ev => negb (isApi ev)) pre = true.
Proof.
  induction pre as [|ev pre IH]; simpl; intros H; [auto|].
  apply andb_true_iff in H as [Hev Hrest]. destruct (IH Hrest) as (Hs & Hp & Hd & Ha).
  destruct ev; try discriminate Hev. repeat split; auto.
  intros ms [Heq|Hin]; [discriminate Heq | exact (Hd ms Hin)].
Qed.

Lemma ethRequests_no_put pre :
  forallb isEthRequest pre = true -> existsb isPut pre = false.
Proof.
  induction pre as [|ev pre IH]; simpl; intros H; [reflexivity|].
  apply andb_true_iff in H as [Hev Hrest]. rewrite (IH Hrest).
  now destruct ev.
Qed.

(** The whole trace of a run after the wallet checks: the creation request,
    what the loop asks, then the updates. *)
Lemma mutationBody_trace env data w r f :
  mutationBody env data (mkFrame w [] []) = (r, f) ->
  exists loopEvs puts,
    trace (world f) = trace w ++ [ApiPost data] ++ loopEvs ++ puts
    /\ forallb (fun ev => negb (isApi ev)) loopEvs = true
    /\ submissions loopEvs <= List.length (Data.recipients data)
    /\ pauses loopEvs <= List.length (Data.recipients data) - 1
    /\ (forall ms, In (Delay ms) loopEvs -> ms = 2000)
    /\ forallb isPut puts = true
    /\ List.length puts <= 2
    /\ (loopEvs ++ puts <> [] ->
        apiReply env (trace w ++ [ApiPost data]) = None /\ puts <> [])
    /\ (forall o, r = Ok o ->
          List.length puts = 1
          /\ List.length (Outcome.transactionHashes o) <= submissions loopEvs
          /\ pauses loopEvs <= List.length (Outcome.transactionHashes o)).
Proof.
  pose proof (mutationBody_run env data w) as Hrun. cbn zeta in Hrun.
  destruct (apiReply env (trace w ++ [ApiPost data])) eqn:Hpost.
  { rewrite Hrun. intros [= <- <-]. exists [], []. cbn [world trace app asked].
    repeat split; try (cbv; lia); try discriminate; try tauto; intros ms []. }
  destruct Hrun as (os & evs & inst & Hmap & Hna & Hs & Hh & Hp & Hb & Hd & _ & ->).
  set (id0 := Schema.id _).
  set (final := Update.mk (finalStatus (failedOf os) (Data.recipients data))
                  (hashesOf os) (failedOf os) (Some "0"%string)).
  set (fallback := catchUpdate data (hashesOf os)).
  outerReply.
  2:{ intros [= <- <-]. exists evs, [ApiPut id0 final].
      cbn [world trace]. rewrite <- !app_assoc.
      repeat split; auto; try (cbv; lia); try discriminate;
        match goal with
        | H : Ok _ = Ok _ |- _ => injection H as <-; assumption
        end. }
  outerReply; intros [= <- <-];
    exists evs, [ApiPut id0 final; ApiPut id0 fallback];
    cbn [world trace]; rewrite <- !app_assoc;
    (repeat split; auto; try (cbv; lia); try discriminate;
     intros Hnil; apply (f_equal (@List.length Event)) in Hnil;
     rewrite length_app in Hnil; simpl in Hnil; lia).
Qed.

(** X9: on any way out, a run makes at most one request to sign per
    recipient and pauses at most once between two recipients, each time for
    2000 ms; when it resolves, every hash of the outcome answers a request of
    its own and every pause follows a hash. *)
Theorem run_request_bounds env data w r w' :
  mutationFn env data w = (r, w') ->
  exists evs,
    trace w' = trace w ++ evs
    /\ submissions evs <= List.length (Data.recipients data)
    /\ pauses evs <= List.length (Data.recipients data) - 1
    /\ (forall ms, In (Delay ms) evs -> ms = 2000)
    /\ (forall o, r = Ok o ->
          List.length (Outcome.transactionHashes o) <= submissions evs
          /\ pauses evs <= List.length (Outcome.transactionHashes o)).
Proof.
  intros Hrun.
  destruct (mutationFn_trace _ _ _ _ _ Hrun) as [(pre & -> & Hpre & e & ->)|(f & -> & Hbody)].
  - destruct (ethRequests_quiet pre Hpre) as (Hs & Hp & Hd & _).
    exists pre. rewrite Hs, Hp. split; [reflexivity|].
    repeat split; try lia; try discriminate; auto.
    intros ms Hin. destruct (Hd ms Hin).
  - destruct (mutationBody_trace _ _ _ _ _ Hbody)
      as (loopEvs & puts & Htr & _ & Hs & Hp & Hd & Hputs & _ & _ & Hok).
    destruct (puts_quiet puts Hputs) as (Hs' & Hp' & Hd').
    exists (walletChecks ++ [ApiPost data] ++ loopEvs ++ puts).
    rewrite Htr. cbn [asked trace]. rewrite <- !app_assoc. split; [reflexivity|].
    rewrite !submissions_app, !pauses_app, Hs', Hp'.
    change (submissions walletChecks) with 0. change (pauses walletChecks) with 0.
    change (submissions [ApiPost data]) with 0. change (pauses [ApiPost data]) with 0.
    repeat split; try lia.
    + intros ms Hin. apply in_app_or in Hin as [Hin|Hin].
      { destruct Hin as [[=]|[[=]|[]]]. }
      apply in_app_or in Hin as [[[=]|[]]|Hin].
      apply in_app_or in Hin as [Hin|Hin]; [auto | destruct (Hd' ms Hin)].
    + destruct (Hok _ ltac:(eassumption)) as (_ & H1 & _). lia.
    + destruct (Hok _ ltac:(eassumption)) as (_ & _ & H2). lia.
Qed.

Lemma run_request_bounds_witness :
  exists evs,
    trace (snd (mutationFn mixedEnv (nativeData threeRecipients) emptyWorld))
    = trace emptyWorld ++ evs
    /\ submissions evs <= 3
    /\ pauses evs <= 3 - 1
    /\ (forall ms, In (Delay ms) evs -> ms = 2000)
    /\ (forall o, Ok mixedOutcome = Ok o ->
          List.length (Outcome.transactionHashes o) <= submissions evs
          /\ pauses evs <= List.length (Outcome.transactionHashes o)).
Proof.
  apply (run_request_bounds mixedEnv (nativeData threeRecipients) emptyWorld
           (Ok mixedOutcome)).
  apply pair_of_fst. vm_compute. reflexivity.
Defined.

(** X10: in a run, every request to sign comes after the request that
    creates the record and only when that request was accepted; before it
    nothing is submitted and no update is sent; no backend request is made
    while the loop runs; the updates, one or two, come after everything the
    loop asks, and a run that resolves has sent exactly one. *)
Theorem record_before_submissions env data w r w' :
  mutationFn env data w = (r, w') ->
  exists pre loopEvs puts,
    trace w' = trace w ++ pre ++ loopEvs ++ puts
    /\ submissions pre = 0
    /\ existsb isPut pre = false
    /\ forallb (fun ev => negb (isApi ev)) loopEvs = true
    /\ forallb isPut puts = true
    /\ List.length puts <= 2
    /\ (loopEvs ++ puts <> [] ->
        last pre = Some (ApiPost data) /\ apiReply env (trace w ++ pre) = None
        /\ puts <> [])
    /\ (forall o, r = Ok o -> List.length puts = 1).
Proof.
  intros Hrun.
  destruct (mutationFn_trace _ _ _ _ _ Hrun) as [(pre & -> & Hpre & e & ->)|(f & -> & Hbody)].
  - destruct (ethRequests_quiet pre Hpre) as (Hs & _).
    pose proof (ethRequests_no_put pre Hpre) as Hnp.
    exists pre, [], []. rewrite !app_nil_r. split; [reflexivity|].
    repeat split; auto; try discriminate; congruence.
  - destruct (mutationBody_trace _ _ _ _ _ Hbody)
      as (loopEvs & puts & Htr & Hna & _ & _ & _ & Hputs & Hlen & Hpost & Hok).
    exists (walletChecks ++ [ApiPost data]), loopEvs, puts.
    rewrite Htr. cbn [asked trace]. rewrite <- !app_assoc. split; [reflexivity|].
    split; [reflexivity|]. split; [reflexivity|].
    repeat (split; [assumption|]). split.
    + intros Hne. destruct (Hpost Hne) as (Hacc & Hp). rewrite app_assoc.
      repeat split; auto.
    + intros o Ho. now destruct (Hok o Ho).
Qed.

Lemma record_before_submissions_witness :
  exists pre loopEvs puts,
    trace (snd (mutationFn mixedEnv (nativeData threeRecipients) emptyWorld))
    = trace emptyWorld ++ pre ++ loopEvs ++ puts
    /\ submissions pre = 0
    /\ existsb isPut pre = false
    /\ forallb (fun ev => negb (isApi ev)) loopEvs = true
    /\ forallb isPut puts = true
    /\ List.length puts <= 2
    /\ (loopEvs ++ puts <> [] ->
        last pre = Some (ApiPost (nativeData threeRecipients))
        /\ apiReply mixedEnv (trace emptyWorld ++ pre) = None
        /\ puts <> [])
    /\ (forall o, Ok mixedOutcome = Ok o -> List.length puts = 1).
Proof.
  apply (record_before_submissions mixedEnv (nativeData threeRecipients) emptyWorld
           (Ok mixedOutcome)).
  apply pair_of_fst. vm_compute. reflexivity.
Defined.

Lemma failedOf_sublist (os : Outcomes) :
  failedOf os `sublist_of` map address (map fst os).
Proof.
  induction os as [|[r [h|]] os IH]; simpl; [constructor | |]; now constructor.
Qed.

(** X11: when a run resolves, the failed addresses of its outcome are
    addresses of recipients, in the order of the list and each at most as
    often as it is listed; there are at most as many hashes as recipients. *)
Theorem failed_addresses_in_order env data w o w' :
  mutationFn env data w = (Ok o, w') ->
  Outcome.failedTransactions o `sublist_of` map address (Data.recipients data)
  /\ List.length (Outcome.transactionHashes o) <= List.length (Data.recipients data).
Proof.
  intros Hrun.
  destruct (mutationFn_trace _ _ _ _ _ Hrun) as [(pre & _ & _ & e & [=])|(f & -> & Hbody)].
  destruct (mutationBody_ok _ _ _ _ _ Hbody) as (os & Hmap & -> & -> & _).
  split.
  - rewrite <- Hmap. apply failedOf_sublist.
  - rewrite <- Hmap, length_map. pose proof (outcomes_length os). lia.
Qed.

Lemma failed_addresses_in_order_witness :
  Outcome.failedTransactions mixedOutcome `sublist_of` map address threeRecipients
  /\ List.length (Outcome.transactionHashes mixedOutcome) <= 3.
Proof.
  apply (failed_addresses_in_order mixedEnv (nativeData threeRecipients) emptyWorld
           mixedOutcome
           (snd (mutationFn mixedEnv (nativeData threeRecipients) emptyWorld))).
  apply pair_of_fst. vm_compute. reflexivity.
Defined.

(** X12: [mutationFn] itself does not refuse an empty list: when it resolves
    on one, the status is confirmed, both arrays are empty, and all that was
    asked is the state of the wallet, the creation of the record and one
    update that marks it confirmed. *)
Theorem empty_batch_confirmed env data w o w' :
  Data.recipients data = [] ->
  mutationFn env data w = (Ok o, w') ->
  Outcome.status o = Schema.confirmed
  /\ Outcome.transactionHashes o = [] /\ Outcome.failedTransactions o = []
  /\ trace w'
     = trace w ++ walletChecks
       ++ [ApiPost data;
           ApiPut (Schema.id (Outcome.record o))
             (Update.mk Schema.confirmed [] [] (Some "0"%string))].
Proof.
  intros Hnil Hrun.
  destruct (mutationFn_trace _ _ _ _ _ Hrun) as [(pre & _ & _ & e & [=])|(f & -> & Hbody)].
  pose proof (mutationBody_run env data (asked walletChecks w)) as Hcases.
  cbn zeta in Hcases.
  destruct (apiReply env (trace (asked walletChecks w) ++ [ApiPost data])).
  { rewrite Hcases in Hbody. discriminate. }
  destruct Hcases as (os & evs & inst & Hmap & _ & _ & _ & _ & _ & _ & Hloop & Heq).
  rewrite Hnil in Hmap, Hloop. destruct os; [|discriminate].
  cbn [List.length forLoop] in Hloop. injection Hloop as _ Htr.
  rewrite <- (app_nil_r (_ ++ [ApiPost data])) in Htr at 1.
  apply app_inv_head in Htr. subst evs.
  rewrite Heq in Hbody. cbn [hashesOf failedOf app] in Hbody.
  revert Hbody. outerReply.
  { outerReply; discriminate. }
  intros [= <- <-]. cbn. repeat split.
  now rewrite <- !app_assoc.
Qed.

Lemma empty_batch_confirmed_witness :
  Outcome.status (Outcome.mk (pendingRecord [] 3) Schema.confirmed [] []) = Schema.confirmed
  /\ Outcome.transactionHashes (Outcome.mk (pendingRecord [] 3) Schema.confirmed [] []) = []
  /\ Outcome.failedTransactions (Outcome.mk (pendingRecord [] 3) Schema.confirmed [] []) = []
  /\ trace (snd (mutationFn mixedEnv (nativeData []) emptyWorld))
     = trace emptyWorld ++ walletChecks
       ++ [ApiPost (nativeData []);
           ApiPut (Schema.id (Outcome.record
                                (Outcome.mk (pendingRecord [] 3) Schema.confirmed [] [])))
             (Update.mk Schema.confirmed [] [] (Some "0"%string))].
Proof.
  apply (empty_batch_confirmed mixedEnv (nativeData []) emptyWorld).
  - reflexivity.
  - apply pair_of_fst. vm_compute. reflexivity.
Defined.

(** X13: when the list is not empty, a token is chosen if the type is
    ERC-20, a wallet is present and it answers the account request with an
    account, [handleSendToMultiple] shows the dialog.  If the user declines,
    nothing else happens.  If the user confirms, the run is started on the
    listed recipients with the first account as sender; when it resolves the
    list is emptied, also after failures, and one toast is shown, an error
    toast exactly when some address failed; when it throws the list is kept
    and the toast carries the message of the error. *)
Theorem handleSendToMultiple_started env ui w account0 rest :
  recipients ui <> [] ->
  (tokenType ui = erc20 -> tokenAddress ui <> ""%string) ->
  ethereum env = true ->
  requestAccountsReply env (trace w ++ [EthRequest "eth_accounts"])
  = inr (account0 :: rest) ->
  let w1 := asked [EthRequest "eth_accounts"] w in
  (confirmAnswer env = false -> handleSendToMultiple env ui w = (ui, w1))
  /\ (confirmAnswer env = true ->
      forall r w2,
        mutationFn env (dataOf env ui account0) w1 = (r, w2) ->
        exists ui',
          handleSendToMultiple env ui w = (ui', w2)
          /\ match r with
             | Ok o =>
                 recipients ui' = []
                 /\ exists t, toasts ui' = toasts ui ++ [t]
                      /\ (destructive t = true <-> Outcome.failedTransactions o <> [])
             | Throw e =>
                 recipients ui' = recipients ui
                 /\ toasts ui' = toasts ui ++ [mkToast "Multisend Failed" (message e) true]
             end).
Proof.
  intros Hne Htok He Ha w1.
  rewrite (handleSendToMultiple_run env ui w Hne Htok He). cbn zeta. rewrite Ha. split.
  - intros ->. reflexivity.
  - intros -> r w2 Hrun. cbn [negb]. unfold mutate. fold w1. rewrite Hrun.
    destruct r as [o|e]; eexists; (split; [reflexivity|]).
    + unfold onSuccess. simpl. split; [reflexivity|]. eexists. split; [reflexivity|].
      destruct (Outcome.failedTransactions o); simpl; split; congruence.
    + unfold onError. simpl. auto.
Qed.

Lemma handleSendToMultiple_started_witness :
  handleSendToMultiple declineEnv readyBook emptyWorld
  = (readyBook, asked [EthRequest "eth_accounts"] emptyWorld)
  /\ exists ui',
      handleSendToMultiple mixedEnv readyBook emptyWorld
      = (ui', snd (mutationFn mixedEnv (dataOf mixedEnv readyBook sender)
                     (asked [EthRequest "eth_accounts"] emptyWorld)))
      /\ recipients ui' = []
      /\ exists t, toasts ui' = toasts readyBook ++ [t]
           /\ (destructive t = true <-> Outcome.failedTransactions handlerOutcome <> []).
Proof.
  split.
  - apply (proj1 (handleSendToMultiple_started declineEnv readyBook emptyWorld sender []
                    ltac:(discriminate) ltac:(discriminate) eq_refl eq_refl)).
    reflexivity.
  - apply (proj2 (handleSendToMultiple_started mixedEnv readyBook emptyWorld sender []
                    ltac:(discriminate) ltac:(discriminate) eq_refl eq_refl)
             eq_refl (Ok handlerOutcome)).
    apply pair_of_fst. vm_compute. reflexivity.
Defined.

(** ** Contract deployment *)

(** X14: [initializeWeb3] keeps the instance it built first: after any
    call, a later call returns the same instance and changes nothing,
    whether or not a wallet is there by then; the first choice is the
    injected wallet when there is one and the fallback URL otherwise; the
    function asks nothing and leaves the record store alone. *)
Theorem provider_is_kept env1 env2 w p w1 :
  initializeWeb3 env1 w = (Ok p, w1) ->
  initializeWeb3 env2 w1 = (Ok p, w1)
  /\ web3Instance w1 = Some p
  /\ trace w1 = trace w /\ store w1 = store w
  /\ (web3Instance w = None ->
      p = if ethereum env1 then Injected else Rpc rpcUrl).
Proof.
  rewrite initializeWeb3_run. intros [= <- <-].
  rewrite initializeWeb3_run. unfold instanceOf at 1 3. cbn [web3Instance store trace].
  repeat split. intros Hnone. unfold instanceOf. now rewrite Hnone.
Qed.

Lemma provider_is_kept_witness :
  initializeWeb3 lowBalanceEnv staleWorld = (Ok (Rpc rpcUrl), staleWorld).
Proof.
  apply (provider_is_kept noWalletEnv lowBalanceEnv emptyWorld).
  reflexivity.
Defined.

(** X15: when [deployContract] returns, a wallet was present, the account
    request made through the instance answered an account, the contract
    object and the deployment on it were built, gas was estimated and then
    the deployment was sent once, from the first account reported and with
    the buffered estimate as gas limit; the result carries the address and
    the hash of the answer, the empty string standing for a missing one. *)
Theorem deployContract_success env bytecode abi args w res w' :
  deployContract env bytecode abi args w = (Ok res, w') ->
  exists web3 account rest gas deployed,
    let tx := Deploy.mkDeployment abi bytecode args in
    ethereum env = true
    /\ web3Instance w' = Some web3
    /\ (web3Instance w = None -> web3 = Injected)
    /\ getAccountsReply env (trace w ++ [GetAccounts web3]) = inr (account :: rest)
    /\ newContract env abi None = None /\ deploy env tx = None
    /\ store w' = store w
    /\ trace w'
       = trace w
         ++ [GetAccounts web3; EstimateDeploy web3 tx account;
             SendDeploy web3 tx account (gasWithBuffer env gas)]
    /\ estimateDeployReply env
         (trace w ++ [GetAccounts web3; EstimateDeploy web3 tx account])
       = inr gas
    /\ sendDeployReply env (trace w') = inr deployed
    /\ res = Deploy.mkResult (default ""%string (Deploy.optionsAddress deployed))
                             (default ""%string (Deploy.deployedHash deployed)).
Proof.
  rewrite deployContract_run. cbn zeta.
  destruct (ethereum env) eqn:He; cbn [negb]; [|discriminate].
  destruct (getAccountsReply env _) as [e|[|account rest]] eqn:Hacc; try discriminate.
  destruct (newContract env abi None) as [e|] eqn:Hnew; [discriminate|].
  destruct (deploy env _) as [e|] eqn:Hdep; [discriminate|].
  destruct (estimateDeployReply env _) as [e|gas] eqn:Hgas; [discriminate|].
  destruct (sendDeployReply env _) as [e|deployed] eqn:Hsend; [discriminate|].
  intros [= <- <-]. exists (instanceOf env w), account, rest, gas, deployed.
  cbn [trace store web3Instance app].
  repeat split; auto.
  intros Hnone. unfold instanceOf. now rewrite Hnone, He.
Qed.

Lemma deployContract_success_witness :
  exists web3 account rest gas deployed,
    let tx := Deploy.mkDeployment [] "0x60" [] in
    ethereum lowBalanceEnv = true
    /\ web3Instance (snd (deployContract lowBalanceEnv "0x60" [] [] emptyWorld))
       = Some web3
    /\ (web3Instance emptyWorld = None -> web3 = Injected)
    /\ getAccountsReply lowBalanceEnv (trace emptyWorld ++ [GetAccounts web3])
       = inr (account :: rest)
    /\ newContract lowBalanceEnv [] None = None /\ deploy lowBalanceEnv tx = None
    /\ store (snd (deployContract lowBalanceEnv "0x60" [] [] emptyWorld))
       = store emptyWorld
    /\ trace (snd (deployContract lowBalanceEnv "0x60" [] [] emptyWorld))
       = trace emptyWorld
         ++ [GetAccounts web3; EstimateDeploy web3 tx account;
             SendDeploy web3 tx account (gasWithBuffer lowBalanceEnv gas)]
    /\ estimateDeployReply lowBalanceEnv
         (trace emptyWorld ++ [GetAccounts web3; EstimateDeploy web3 tx account])
       = inr gas
    /\ sendDeployReply lowBalanceEnv
         (trace (snd (deployContract lowBalanceEnv "0x60" [] [] emptyWorld)))
       = inr deployed
    /\ Deploy.mkResult (addr40 "9") ""
       = Deploy.mkResult (default ""%string (Deploy.optionsAddress deployed))
                         (default ""%string (Deploy.deployedHash deployed)).
Proof.
  apply (deployContract_success lowBalanceEnv "0x60" [] [] emptyWorld
           (Deploy.mkResult (addr40 "9") "")).
  apply pair_of_fst. vm_compute. reflexivity.
Defined.

(** X16: a call of [deployContract] made while no wallet is there throws
    and leaves the instance built on the fallback node behind; a later
    call, made when a wallet is there, still goes through that instance, so
    it asks the node for the accounts and, the node answering none, throws
    that no wallet is connected, whatever accounts the wallet holds. *)
Theorem stale_fallback_provider env1 env2 b1 a1 c1 b2 a2 c2 w :
  web3Instance w = None ->
  ethereum env1 = false ->
  ethereum env2 = true ->
  getAccountsReply env2 (trace w ++ [GetAccounts (Rpc rpcUrl)]) = inr [] ->
  exists w1,
    deployContract env1 b1 a1 c1 w = (Throw (newError "MetaMask not available"), w1)
    /\ w1 = mkWorld (store w) (Some (Rpc rpcUrl)) (trace w)
    /\ deployContract env2 b2 a2 c2 w1
       = (Throw (newError "No wallet connected"),
          mkWorld (store w) (Some (Rpc rpcUrl)) (trace w ++ [GetAccounts (Rpc rpcUrl)])).
Proof.
  intros Hnone H1 H2 Hrpc.
  eexists. split; [|split; [reflexivity|]].
  - rewrite deployContract_run. cbn zeta. unfold instanceOf.
    rewrite Hnone, H1. cbn [negb]. now rewrite app_nil_r.
  - rewrite deployContract_run. cbn zeta. unfold instanceOf.
    cbn [web3Instance store trace]. rewrite H2. cbn [negb]. now rewrite Hrpc.
Qed.

Lemma stale_fallback_provider_witness :
  exists w1,
    deployContract noWalletEnv "0x60" [] [] emptyWorld
    = (Throw (newError "MetaMask not available"), w1)
    /\ w1 = mkWorld (store emptyWorld) (Some (Rpc rpcUrl)) (trace emptyWorld)
    /\ deployContract lowBalanceEnv "0x60" [] [] w1
       = (Throw (newError "No wallet connected"),
          mkWorld (store emptyWorld) (Some (Rpc rpcUrl))
            (trace emptyWorld ++ [GetAccounts (Rpc rpcUrl)])).
Proof.
  apply (stale_fallback_provider noWalletEnv lowBalanceEnv
           "0x60" [] [] "0x60" [] [] emptyWorld);
    reflexivity.
Defined.

(** X17: when [deployContract] throws, the error is [MetaMask not
    available], nothing having been asked; or, after the account request
    only, the error of that request, [No wallet connected] when it answers
    no account, or the error met in building the contract object or the
    deployment; or the error of the gas estimate, nothing having been sent;
    or the error of the deployment sent, which is sent once.  Errors that
    are not the function's own two leave it as they came, code included. *)
Theorem deployContract_failure env bytecode abi args w e w' :
  deployContract env bytecode abi args w = (Throw e, w') ->
  let web3 := instanceOf env w in
  exists evs,
    w' = mkWorld (store w) (Some web3) (trace w ++ evs)
    /\ ((e = newError "MetaMask not available" /\ ethereum env = false /\ evs = [])
        \/ (evs = [GetAccounts web3]
            /\ (getAccountsReply env (trace w') = inl e
                \/ (getAccountsReply env (trace w') = inr []
                    /\ e = newError "No wallet connected")
                \/ newContract env abi None = Some e
                \/ deploy env (Deploy.mkDeployment abi bytecode args) = Some e))
        \/ (estimateDeployReply env (trace w') = inl e
            /\ existsb isDeploySend evs = false)
        \/ (sendDeployReply env (trace w') = inl e
            /\ List.length (List.filter isDeploySend evs) = 1)).
Proof.
  rewrite deployContract_run. cbn zeta.
  destruct (ethereum env) eqn:He; cbn [negb].
  2:{ intros [= <- <-]. exists []. auto. }
  destruct (getAccountsReply env _) as [e1|[|account rest]] eqn:Hacc.
  { intros [= <- <-]. eexists. split; [reflexivity|]. right. left. auto. }
  { intros [= <- <-]. eexists. split; [reflexivity|]. right. left. auto. }
  destruct (newContract env abi None) as [e1|] eqn:Hnew.
  { intros [= <- <-]. eexists. split; [reflexivity|]. right. left. auto 6. }
  destruct (deploy env _) as [e1|] eqn:Hdep.
  { intros [= <- <-]. eexists. split; [reflexivity|]. right. left. auto 6. }
  destruct (estimateDeployReply env _) as [e1|gas] eqn:Hgas.
  { intros [= <- <-]. eexists. split; [reflexivity|]. right. right. left. auto. }
  destruct (sendDeployReply env _) as [e1|deployed] eqn:Hsend; [|discriminate].
  intros [= <- <-]. eexists. split; [reflexivity|]. right. right. right. auto.
Qed.

Lemma deployContract_failure_witness :
  exists evs,
    snd (deployContract busyWalletEnv "0x60" [] [] emptyWorld)
    = mkWorld (store emptyWorld) (Some (instanceOf busyWalletEnv emptyWorld))
        (trace emptyWorld ++ evs)
    /\ ((alreadyPending = newError "MetaMask not available"
         /\ ethereum busyWalletEnv = false /\ evs = [])
        \/ (evs = [GetAccounts (instanceOf busyWalletEnv emptyWorld)]
            /\ (getAccountsReply busyWalletEnv
                  (trace (snd (deployContract busyWalletEnv "0x60" [] [] emptyWorld)))
                = inl alreadyPending
                \/ (getAccountsReply busyWalletEnv
                      (trace (snd (deployContract busyWalletEnv "0x60" [] [] emptyWorld)))
                    = inr []
                    /\ alreadyPending = newError "No wallet connected")
                \/ newContract busyWalletEnv [] None = Some alreadyPending
                \/ deploy busyWalletEnv (Deploy.mkDeployment [] "0x60" [])
                   = Some alreadyPending))
        \/ (estimateDeployReply busyWalletEnv
              (trace (snd (deployContract busyWalletEnv "0x60" [] [] emptyWorld)))
            = inl alreadyPending
            /\ existsb isDeploySend evs = false)
        \/ (sendDeployReply busyWalletEnv
              (trace (snd (deployContract busyWalletEnv "0x60" [] [] emptyWorld)))
            = inl alreadyPending
            /\ List.length (List.filter isDeploySend evs) = 1)).
Proof.
  apply (deployContract_failure busyWalletEnv "0x60" [] [] emptyWorld alreadyPending).
  apply pair_of_fst. vm_compute. reflexivity.
Defined.

(** ** The backend *)


(** ** The fields of an imported line *)

Lemma split_nonempty sep s : Js.split sep s <> [].
Proof.
  destruct s as [|c s]; simpl; [discriminate|].
  destruct (Ascii.eqb c sep); [discriminate|].
  destruct (Js.split sep s); discriminate.
Qed.

Lemma split_no_separator sep s :
  (forall c, In c (list_ascii_of_string s) -> c <> sep) -> Js.split sep s = [s].
Proof.
  induction s as [|c s IH]; simpl; intros Hno; [reflexivity|].
  destruct (Ascii.eqb_spec c sep) as [->|Hne].
  - destruct (Hno sep); auto.
  - rewrite IH; auto.
Qed.

Lemma split_at_separator sep a b :
  Js.split sep (a ++ String sep b)%string = Js.split sep a ++ Js.split sep b.
Proof.
  induction a as [|c a IH]; simpl.
  - now rewrite Ascii.eqb_refl.
  - destruct (Ascii.eqb c sep); [now rewrite IH|].
    rewrite IH. pose proof (split_nonempty sep a).
    destruct (Js.split sep a); [congruence | reflexivity].
Qed.

(** X18: the import reads a line as fields separated by commas and looks
    at the first two only: a line without a comma is dropped, and whatever
    follows a second comma does not change what the line gives. *)
Theorem csvLine_fields line extra :
  ((forall c, In c (list_ascii_of_string line) -> c <> ","%char) ->
   csvLine line = None)
  /\ (2 <= List.length (Js.split "," line) ->
      csvLine (line ++ String "," extra)%string = csvLine line).
Proof.
  split.
  - intros Hno. unfold csvLine. now rewrite split_no_separator.
  - intros Hlen. unfold csvLine. rewrite split_at_separator, map_app.
    destruct (Js.split "," line) as [|a [|m rest]]; simpl in *; try lia.
    reflexivity.
Qed.

Lemma csvLine_fields_witness :
  csvLine "notanaddress" = None
  /\ csvLine ((addr40 "1" ++ ",1.5") ++ String "," "a note")%string
     = csvLine (addr40 "1" ++ ",1.5")%string.
Proof.
  split.
  - apply (proj1 (csvLine_fields "notanaddress" "")).
    intros c Hin. simpl in Hin.
    repeat (destruct Hin as [<-|Hin]; [discriminate|]). destruct Hin.
  - apply (proj2 (csvLine_fields (addr40 "1" ++ ",1.5")%string "a note")).
    vm_compute. lia.
Defined.
